(** * dominos.py: a session client for the dominos.co.uk ordering site

    Shallow embedding of [src/dominos/dominos.py] (classes [Item], [Basket],
    [Menu] and [Dominos]) and the properties of its operations.

    Modelling choices, all visible in the definitions below:
    - Python values coming out of [r.json()] are JSON trees ([json]); JSON
      numbers are restricted to integers.
    - [Item] and [Basket] instances live in two heaps indexed by object
      identity; an instance is its attribute dictionary ([__dict__]).
      The objects reachable from two distinct instances are disjoint (they
      are built from freshly parsed responses), so an in-place update of a
      list reachable from an item is an update of that item's heap cell.
    - The [requests] library is the environment: the replies of the remote
      site are a script consumed in order, every request is logged.
    - Exceptions are values of type [exn]; a method is a state transformer
      returning [Ok v] or [Raise e] together with the state reached. *)

From Stdlib Require Import ZArith String Ascii Lia.
From stdpp Require Import base option list sorting gmap strings.

Local Open Scope string_scope.
Local Open Scope list_scope.

(** ** Python values *)

#[warnings="-register-all"]
Inductive json : Type :=
| JNull
| JBool (b : bool)
| JInt (n : Z)
| JStr (s : string)
| JList (l : list json)
| JDict (d : list (string * json)).

Definition dict : Type := list (string * json).

Inductive exn : Type :=
| ConnectionError      (* requests.exceptions.ConnectionError and friends *)
| ValueError           (* r.json() on a body that is not JSON *)
| KeyError
| IndexError
| TypeError
| AttributeError
| UnboundLocalError
| DanglingReference.   (* model only: an identity that was never allocated *)

Inductive result (A : Type) : Type :=
| Ok (a : A)
| Raise (e : exn).
Arguments Ok {A} a.
Arguments Raise {A} e.

(** [d[k]] on a dictionary with string keys: first binding of [k]. *)
Fixpoint dict_get (k : string) (d : dict) : option json :=
  match d with
  | [] => None
  | (k', v) :: d' => if String.eqb k k' then Some v else dict_get k d'
  end.

(** [d[k] = v]: replaces the binding of [k] when there is one, adds it
    otherwise. *)
Fixpoint dict_set (k : string) (v : json) (d : dict) : dict :=
  match d with
  | [] => [(k, v)]
  | (k', v') :: d' =>
      if String.eqb k k' then (k, v) :: d' else (k', v') :: dict_set k v d'
  end.

Definition dict_has (k : string) (d : dict) : bool :=
  match dict_get k d with Some _ => true | None => false end.

(** Truth value of an object, as tested by [not x]. *)
Definition py_truthy (v : json) : bool :=
  match v with
  | JNull => false
  | JBool b => b
  | JInt n => negb (n =? 0)%Z
  | JStr s => negb (String.eqb s "")
  | JList l => match l with [] => false | _ => true end
  | JDict d => match d with [] => false | _ => true end
  end.

(** [l[i]] on a Python list: a negative index counts from the end. *)
Definition list_getitem {A} (l : list A) (i : Z) : result A :=
  let n := Z.of_nat (length l) in
  let j := if (i <? 0)%Z then (i + n)%Z else i in
  if ((j <? 0) || (n <=? j))%Z then Raise IndexError
  else match l !! Z.to_nat j with
       | Some x => Ok x
       | None => Raise IndexError
       end.

(** [l[i] = x] for the position [l[i]] reads. *)
Definition list_setitem {A} (l : list A) (i : Z) (x : A) : list A :=
  let n := Z.of_nat (length l) in
  let j := if (i <? 0)%Z then (i + n)%Z else i in
  if ((j <? 0) || (n <=? j))%Z then l else <[Z.to_nat j := x]> l.

(** The one-character strings of a string. The model's strings are byte
    strings: for text outside ASCII a character is several of them. *)
Definition chars (s : string) : list string :=
  (λ c, String c EmptyString) <$> list_ascii_of_string s.

(** [v[k]] with a string subscript. *)
Definition getitem_str (v : json) (k : string) : result json :=
  match v with
  | JDict d => match dict_get k d with Some x => Ok x | None => Raise KeyError end
  | _ => Raise TypeError
  end.

(** [v[i]] with an integer subscript. The keys of a parsed JSON object are
    strings, so an integer is never one of them. *)
Definition getitem_int (v : json) (i : Z) : result json :=
  match v with
  | JList l => list_getitem l i
  | JStr s => list_getitem (JStr <$> chars s) i
  | JDict _ => Raise KeyError
  | _ => Raise TypeError
  end.

(** [v[k] = x] with a string subscript. *)
Definition setitem_str (v : json) (k : string) (x : json) : result json :=
  match v with
  | JDict d => Ok (JDict (dict_set k x d))
  | _ => Raise TypeError
  end.

(** The elements a [for] loop over [v] visits. The keys of a dictionary
    come in the order the model holds them; Python promises no order. *)
Definition py_iter (v : json) : result (list json) :=
  match v with
  | JList l => Ok l
  | JDict d => Ok ((λ kv, JStr kv.1) <$> d)
  | JStr s => Ok (JStr <$> chars s)
  | _ => Raise TypeError
  end.

(** Calling a class with the keyword arguments unpacked from [v], where the
    constructor takes [self] and a keyword dictionary [entries]: [v] must be
    a mapping, and a key named [self] clashes with the first parameter. The result is the new instance's [__dict__]. *)
Definition kwargs (v : json) : result dict :=
  match v with
  | JDict d => if dict_has "self" d then Raise TypeError else Ok d
  | _ => Raise TypeError
  end.

(** [o.name] on an instance with attribute dictionary [attrs], for a name
    that the class does not define. That is the case of every name the
    source reads ([Type], [ProductSkus], [ProductId], [Items],
    [BasketItemId], [Title]); names with two leading underscores, which
    Python may resolve on the class, are outside this model. *)
Definition getattr (attrs : dict) (name : string) : result json :=
  match dict_get name attrs with Some x => Ok x | None => Raise AttributeError end.

(** [v += ext] where [ext] is a list: only a list accepts it, and it is
    extended in place. *)
Definition iadd_list (v : json) (ext : list json) : result json :=
  match v with
  | JList l => Ok (JList (l ++ ext))
  | _ => Raise TypeError
  end.

(** Keys of [Menu.items]: the hashable values a category can be. [True] and
    [False] hash and compare as 1 and 0. *)
Inductive hkey : Type :=
| HNone
| HInt (n : Z)
| HStr (s : string).

Definition py_hashable (v : json) : result hkey :=
  match v with
  | JNull => Ok HNone
  | JBool b => Ok (HInt (if b then 1 else 0))
  | JInt n => Ok (HInt n)
  | JStr s => Ok (HStr s)
  | JList _ | JDict _ => Raise TypeError
  end.

Global Instance hkey_eq_dec : EqDecision hkey.
Proof. solve_decision. Defined.

Global Instance hkey_countable : Countable hkey.
Proof.
  refine (inj_countable'
    (λ k, match k with
          | HNone => inl ()
          | HInt n => inr (inl n)
          | HStr s => inr (inr s)
          end)
    (λ x, match x with
          | inl _ => HNone
          | inr (inl n) => HInt n
          | inr (inr s) => HStr s
          end) _).
  intros []; reflexivity.
Defined.

(** ** The environment: the remote site seen through [requests] *)

Inductive method : Type := GET | POST.

Definition cookie : Type := string.

(** A call of [self.sess.get] or [self.sess.post]: what the client hands to
    the session. [rq_cookies] is the jar the session holds at that moment;
    which of its cookies go on the wire, and what else the session sends to
    complete the call (a redirect followed), is the business of [requests]. *)
Record request : Type := mkRequest {
  rq_method : method;
  rq_url : string;
  rq_params : dict;
  rq_headers : list (string * string);
  rq_data : option json;
  rq_cookies : list cookie
}.

(** How one call to the session ends: it raises, or it returns a response
    with a status code, a body ([None] when the body is not JSON, so that
    [r.json()] raises) and the cookies the jar gained. *)
Inductive reply : Type :=
| Transport_failure
| Response (status_code : Z) (body : option json) (set_cookies : list cookie).

Record response : Type := mkResponse {
  status_code : Z;
  body : option json
}.

(** [r.json()] *)
Definition response_json (r : response) : result json :=
  match body r with
  | Some j => Ok j
  | None => Raise ValueError
  end.

(** What [print] writes. *)
Inductive message : Type :=
| Error_connection_failed   (* '[Error] Connection failed to remove item.' *)
| Error_invalid_response    (* '[Error] Error removing item. Invalid response.' *)
| OK_removed (title : json). (* u'[OK] Removed %s' % item.Title *)

(** ** The classes *)

(** [class Menu]: [items] maps a category to the identities of its items. *)
Record Menu : Type := mkMenu {
  items : gmap hkey (list nat)
}.

(** [Menu.__init__] *)
Definition Menu_new : Menu := {| items := ∅ |}.

(** [Menu.addItem]: [setdefault(category, [])] then [append(item)]. *)
Definition Menu_addItem (category : hkey) (item : nat) (m : Menu) : Menu :=
  {| items := <[category := default [] (items m !! category) ++ [item]]> (items m) |}.

(** [Menu.itemsInCategory] *)
Definition itemsInCategory (m : Menu) (category : hkey) : list nat :=
  default [] (items m !! category).

(** The attributes of a [Dominos] instance. [basket] is created by the first
    successful [get_basket], [add_item] or [remove_item]: [None] is the
    attribute still missing. *)
Record Dominos : Type := mkDominos {
  sess : list cookie;
  stores : list json;
  menu_version : json;
  menu : Menu;
  basket : option nat
}.

Definition base_url : string := "https://www.dominos.co.uk/".

Record World : Type := mkWorld {
  item_heap : gmap nat dict;      (* the Item instances *)
  basket_heap : gmap nat dict;    (* the Basket instances *)
  next_id : nat;                  (* identity of the next instance *)
  net : list reply;               (* replies still to come *)
  log : list request;             (* calls made to the session, oldest first *)
  clock : Z;                      (* calendar.timegm(time.gmtime()) *)
  stdout : list message
}.

Definition set_sess (v : list cookie) (d : Dominos) : Dominos :=
  mkDominos v (stores d) (menu_version d) (menu d) (basket d).
Definition set_stores (v : list json) (d : Dominos) : Dominos :=
  mkDominos (sess d) v (menu_version d) (menu d) (basket d).
Definition set_menu_version (v : json) (d : Dominos) : Dominos :=
  mkDominos (sess d) (stores d) v (menu d) (basket d).
Definition set_menu (v : Menu) (d : Dominos) : Dominos :=
  mkDominos (sess d) (stores d) (menu_version d) v (basket d).
Definition set_basket (v : nat) (d : Dominos) : Dominos :=
  mkDominos (sess d) (stores d) (menu_version d) (menu d) (Some v).

Definition set_item_heap (h : gmap nat dict) (w : World) : World :=
  mkWorld h (basket_heap w) (next_id w) (net w) (log w) (clock w) (stdout w).
Definition set_basket_heap (h : gmap nat dict) (w : World) : World :=
  mkWorld (item_heap w) h (next_id w) (net w) (log w) (clock w) (stdout w).
Definition set_next_id (n : nat) (w : World) : World :=
  mkWorld (item_heap w) (basket_heap w) n (net w) (log w) (clock w) (stdout w).
Definition set_net (l : list reply) (w : World) : World :=
  mkWorld (item_heap w) (basket_heap w) (next_id w) l (log w) (clock w) (stdout w).
Definition set_log (l : list request) (w : World) : World :=
  mkWorld (item_heap w) (basket_heap w) (next_id w) (net w) l (clock w) (stdout w).
Definition set_stdout (l : list message) (w : World) : World :=
  mkWorld (item_heap w) (basket_heap w) (next_id w) (net w) (log w) (clock w) l.

(** ** Methods as state transformers that may raise *)

Definition State : Type := Dominos * World.

Definition M (A : Type) : Type := State → result A * State.

Global Instance M_ret : MRet M := λ A a s, (Ok a, s).

Global Instance M_bind : MBind M := λ A B f c s,
  match c s with
  | (Ok a, s') => f a s'
  | (Raise e, s') => (Raise e, s')
  end.

Definition raise {A} (e : exn) : M A := λ s, (Raise e, s).

Definition lift {A} (r : result A) : M A := λ s, (r, s).

Definition get_self : M Dominos := λ s, (Ok s.1, s).

Definition modify_self (f : Dominos → Dominos) : M unit := λ s, (Ok (), (f s.1, s.2)).

Definition get_world : M World := λ s, (Ok s.2, s).

Definition modify_world (f : World → World) : M unit := λ s, (Ok (), (s.1, f s.2)).

(** [try: body except: handler]. The bare [except] catches everything; what
    [body] did to the state before raising stays done. *)
Definition try_except {A} (body handler : M A) : M A := λ s,
  match body s with
  | (Raise _, s') => handler s'
  | r => r
  end.

(** A [for] loop with a loop-carried local: stops at the first exception. *)
Fixpoint foldM {A B} (f : B → A → M B) (b : B) (l : list A) : M B :=
  match l with
  | [] => mret b
  | x :: l' => b' ← f b x; foldM f b' l'
  end.

Definition for_each {A} (l : list A) (f : A → M unit) : M unit :=
  foldM (λ _ x, f x) () l.

Definition print (m : message) : M unit :=
  modify_world (λ w, set_stdout (stdout w ++ [m]) w).

(** The reply to the next request, and the replies left after it. A site
    that has nothing more to say is a transport failure. *)
Definition next_reply (w : World) : reply * list reply :=
  match net w with
  | [] => (Transport_failure, [])
  | r :: rest => (r, rest)
  end.

(** The world after a request was sent: it is logged and its reply consumed. *)
Definition sent (rq : request) (w : World) : World :=
  set_net (next_reply w).2 (set_log (log w ++ [rq]) w).

(** [self.sess.get] and [self.sess.post]: the call is logged with the jar
    of that moment; it raises, or returns the response and its cookies join
    the jar. *)
Definition send (m : method) (url : string) (params : dict)
    (headers : list (string * string)) (data : option json) : M response :=
  λ s,
    let rq := mkRequest m url params headers data (sess s.1) in
    match (next_reply s.2).1 with
    | Transport_failure => (Raise ConnectionError, (s.1, sent rq s.2))
    | Response st b ck =>
        (Ok (mkResponse st b), (set_sess (sess s.1 ++ ck) s.1, sent rq s.2))
    end.

Definition sess_get (url : string) (params : dict)
    (headers : list (string * string)) : M response :=
  send GET url params headers None.

Definition sess_post (url : string) (data : json)
    (headers : list (string * string)) : M response :=
  send POST url [] headers (Some data).

(** [Item] called on the unpacked [v]: a new instance whose attributes are
    the entries of [v]. *)
Definition Item_new (v : json) : M nat :=
  attrs ← lift (kwargs v);
  w ← get_world;
  modify_world (λ w, set_next_id (S (next_id w))
                       (set_item_heap (<[next_id w := attrs]> (item_heap w)) w));;
  mret (next_id w).

(** [Basket] called on the unpacked [v]. *)
Definition Basket_new (v : json) : M nat :=
  attrs ← lift (kwargs v);
  w ← get_world;
  modify_world (λ w, set_next_id (S (next_id w))
                       (set_basket_heap (<[next_id w := attrs]> (basket_heap w)) w));;
  mret (next_id w).

(** [item.name] for the Item of identity [item]. *)
Definition Item_getattr (item : nat) (name : string) : M json :=
  w ← get_world;
  match item_heap w !! item with
  | Some attrs => lift (getattr attrs name)
  | None => raise DanglingReference
  end.

(** [basket.name] for the Basket of identity [b]. *)
Definition Basket_getattr (b : nat) (name : string) : M json :=
  w ← get_world;
  match basket_heap w !! b with
  | Some attrs => lift (getattr attrs name)
  | None => raise DanglingReference
  end.

(** [self.basket] *)
Definition self_basket : M nat :=
  d ← get_self;
  match basket d with
  | Some b => mret b
  | None => raise AttributeError
  end.

(** ** [class Dominos] *)

Definition json_headers : list (string * string) :=
  [("content-type", "application/json; charset=utf-8")].

(** [v == s] for a string literal [s]. *)
Definition py_eq_str (v : json) (s : string) : bool :=
  match v with
  | JStr s' => String.eqb s' s
  | _ => false
  end.

Definition reset_session : M unit :=
  sess_get (base_url +:+ "/Home/SessionExpire") [] [];;
  modify_self (set_sess []).

(** [Dominos.__init__]: the attributes are set, then the session is reset. *)
Definition Dominos_init (w : World) : result unit * State :=
  reset_session (mkDominos [] [] JNull Menu_new None, w).

Definition get_epoch : M Z :=
  w ← get_world; mret (clock w).

Definition search_stores (term : string) : M (list json) :=
  modify_self (set_stores []);;
  r ← sess_get (base_url +:+ "storelocatormap/storenamesearch")
               [("search", JStr term)] [];
  results ← lift (response_json r);
  results ← lift (py_iter results);
  for_each results (λ result,
    modify_self (λ d, set_stores (stores d ++ [result]) d));;
  d ← get_self;
  mret (stores d).

Definition select_store (idx : Z) : M json :=
  d ← get_self;
  lift (list_getitem (stores d) idx).

Definition get_cookie (store : json) (postcode : string) : M unit :=
  store_id ← lift (getitem_str store "Id");
  sess_get (base_url +:+ "Journey/Initialize")
           [("fulfilmentmethod", JStr "1"); ("storeId", store_id);
            ("postcode", JStr postcode)] [];;
  mret ().

Definition get_store_context : M bool :=
  epoch ← get_epoch;
  r ← sess_get (base_url +:+ "ProductCatalog/GetStoreContext")
               [("_", JInt epoch)] json_headers;
  context ← try_except (context ← lift (response_json r); mret (Some context))
                       (mret None);
  match context with
  | None => mret false
  | Some context =>
      session_context ← lift (getitem_str context "sessionContext");
      version ← lift (getitem_str session_context "menuVersion");
      modify_self (set_menu_version version);;
      mret true
  end.

Definition get_basket : M bool :=
  r ← sess_get (base_url +:+ "/Basket/GetBasket?") [] [];
  try_except
    (j ← lift (response_json r);
     b ← Basket_new j;
     modify_self (set_basket b);;
     mret true)
    (mret false).

(** The body of the innermost loop of [get_menu], for the subcategory [i]
    and the product [p]; the value is the next [idx]. *)
Definition get_menu_product (i : json) (idx : Z) (p : json) : M Z :=
  p ← lift (setitem_str p "idx" (JInt idx));
  category ← lift (getitem_str i "Type");
  item ← Item_new p;
  category ← lift (py_hashable category);
  modify_self (λ d, set_menu (Menu_addItem category item (menu d)) d);;
  mret (idx + 1)%Z.

Definition get_menu_subcategory (idx : Z) (i : json) : M Z :=
  products ← lift (getitem_str i "Products");
  products ← lift (py_iter products);
  foldM (get_menu_product i) idx products.

Definition get_menu_group (idx : Z) (item : json) : M Z :=
  subcategories ← lift (getitem_str item "Subcategories");
  subcategories ← lift (py_iter subcategories);
  foldM get_menu_subcategory idx subcategories.

(** [get_menu]: [None] is Python's [None], [Some m] the menu. The two values
    substituted into the query string are kept as request parameters. *)
Definition get_menu (store : json) : M (option Menu) :=
  modify_self (set_menu Menu_new);;
  d ← get_self;
  if negb (py_truthy (menu_version d)) then mret None
  else
    store_id ← lift (getitem_str store "Id");
    r ← sess_get (base_url +:+ "/ProductCatalog/GetStoreCatalog")
                 [("collectionOnly", JStr "false");
                  ("menuVersion", menu_version d);
                  ("storeId", store_id)] [];
    catalog ← lift (response_json r);
    catalog ← lift (py_iter catalog);
    foldM get_menu_group 0%Z catalog;;
    d ← get_self;
    mret (Some (menu d)).

(** [ingredients += [42, 36]] extends the list object that the item holds at
    [item.ProductSkus[size_idx]['Ingredients']]: the local name and the item
    share it. [new] is the extended list. *)
Definition Item_write_ingredients (size_idx : Z) (new : json) (attrs : dict) : dict :=
  match dict_get "ProductSkus" attrs with
  | Some (JList skus) =>
      match list_getitem skus size_idx with
      | Ok (JDict sku) =>
          dict_set "ProductSkus"
            (JList (list_setitem skus size_idx
                      (JDict (dict_set "Ingredients" new sku)))) attrs
      | _ => attrs
      end
  | _ => attrs
  end.

Definition pizza_payload (size_idx : Z) (product_id ingredients : json) : json :=
  JDict [("stepId", JInt 0); ("quantity", JInt 1); ("sizeId", JInt size_idx);
         ("productId", product_id); ("ingredients", ingredients);
         ("productIdHalfTwo", JInt 0); ("ingredientsHalfTwo", JList []);
         ("recipeReferrer", JInt 0)].

Definition side_payload (sku_id : json) : json :=
  JDict [("ProductSkuId", sku_id); ("Quantity", JInt 1);
         ("ComplimentaryItems", JList [])].

(** The [if]/[elif] of [add_item]: the url and, when a branch was taken, the
    payload. *)
Definition add_item_payload (item : nat) (size_idx : Z) : M (string * option json) :=
  type ← Item_getattr item "Type";
  if py_eq_str type "Pizza" then
    skus ← Item_getattr item "ProductSkus";
    sku ← lift (getitem_int skus size_idx);
    ingredients ← lift (getitem_str sku "Ingredients");
    ingredients ← lift (iadd_list ingredients [JInt 42; JInt 36]);
    modify_world (λ w, set_item_heap
      (alter (Item_write_ingredients size_idx ingredients) item (item_heap w)) w);;
    product_id ← Item_getattr item "ProductId";
    mret (base_url +:+ "/Basket/AddPizza/",
          Some (pizza_payload size_idx product_id ingredients))
  else if py_eq_str type "Side" then
    skus ← Item_getattr item "ProductSkus";
    sku ← lift (getitem_int skus size_idx);
    sku_id ← lift (getitem_str sku "ProductSkuId");
    mret (base_url +:+ "/Basket/AddProduct/", Some (side_payload sku_id))
  else mret (base_url, None).

Definition add_item (item : nat) (size_idx : Z) : M bool :=
  '(url, payload) ← add_item_payload item size_idx;
  payload ← match payload with
            | Some p => mret p
            | None => raise UnboundLocalError
            end;
  r ← sess_post url payload json_headers;
  if negb (status_code r =? 200)%Z then mret false
  else
    try_except
      (j ← lift (response_json r);
       b ← Basket_new j;
       modify_self (set_basket b);;
       mret true)
      (mret false).

Definition remove_item (basket_item_idx : Z) : M unit :=
  b ← self_basket;
  lines ← Basket_getattr b "Items";
  line ← lift (getitem_int lines basket_item_idx);
  item ← Item_new line;
  basket_item_id ← Item_getattr item "BasketItemId";
  r ← sess_get (base_url +:+ "/Basket/RemoveBasketItem")
               [("basketItemId", basket_item_id);
                ("wizardItemDelete", JBool false)] [];
  if negb (status_code r =? 200)%Z then print Error_connection_failed
  else
    replaced ← try_except
      (j ← lift (response_json r);
       b ← Basket_new j;
       modify_self (set_basket b);;
       mret true)
      (print Error_invalid_response;; mret false);
    if replaced : bool then
      title ← Item_getattr item "Title";
      print (OK_removed title)
    else mret ().

(** The request [reset_session] sends from a jar. *)
Definition session_expire (jar : list cookie) : request :=
  mkRequest GET (base_url +:+ "/Home/SessionExpire") [] [] None jar.

(** The call [add_item] is to make for a pizza, written out field by field
    from lines 195-221 of the source, independently of [add_item]'s model
    above: the url, the content type, and the body with its eight entries. *)
Definition add_pizza (size_idx : Z) (product_id : json) (ingredients : list json)
    (jar : list cookie) : request :=
  {| rq_method := POST;
     rq_url := "https://www.dominos.co.uk//Basket/AddPizza/";
     rq_params := [];
     rq_headers := [("content-type", "application/json; charset=utf-8")];
     rq_data :=
       Some (JDict [("stepId", JInt 0);
                    ("quantity", JInt 1);
                    ("sizeId", JInt size_idx);
                    ("productId", product_id);
                    ("ingredients", JList ingredients);
                    ("productIdHalfTwo", JInt 0);
                    ("ingredientsHalfTwo", JList []);
                    ("recipeReferrer", JInt 0)]);
     rq_cookies := jar |}.

(** The request [remove_item] sends for a basket item id. *)
Definition remove_basket_item (basket_item_id : json) (jar : list cookie) : request :=
  mkRequest GET (base_url +:+ "/Basket/RemoveBasketItem")
    [("basketItemId", basket_item_id); ("wizardItemDelete", JBool false)] [] None jar.

(** The request [get_store_context] sends. *)
Definition store_context_request (epoch : Z) (jar : list cookie) : request :=
  mkRequest GET (base_url +:+ "ProductCatalog/GetStoreContext")
    [("_", JInt epoch)] json_headers None jar.

(** The request [get_basket] sends. *)
Definition basket_request (jar : list cookie) : request :=
  mkRequest GET (base_url +:+ "/Basket/GetBasket?") [] [] None jar.

(** The request [search_stores] sends. *)
Definition search_request (term : string) (jar : list cookie) : request :=
  mkRequest GET (base_url +:+ "storelocatormap/storenamesearch")
    [("search", JStr term)] [] None jar.

(** The request [get_cookie] sends. *)
Definition initialize_request (store_id : json) (postcode : string)
    (jar : list cookie) : request :=
  mkRequest GET (base_url +:+ "Journey/Initialize")
    [("fulfilmentmethod", JStr "1"); ("storeId", store_id);
     ("postcode", JStr postcode)] [] None jar.

(** The request [get_menu] sends. *)
Definition catalog_request (version store_id : json) (jar : list cookie) : request :=
  mkRequest GET (base_url +:+ "/ProductCatalog/GetStoreCatalog")
    [("collectionOnly", JStr "false"); ("menuVersion", version);
     ("storeId", store_id)] [] None jar.

(** The world after a Basket with attributes [attrs] was created. *)
Definition with_new_basket (attrs : dict) (w : World) : World :=
  set_next_id (S (next_id w))
    (set_basket_heap (<[next_id w := attrs]> (basket_heap w)) w).

(** The world after an Item with attributes [attrs] was created. *)
Definition with_new_item (attrs : dict) (w : World) : World :=
  set_next_id (S (next_id w))
    (set_item_heap (<[next_id w := attrs]> (item_heap w)) w).

(** The world after [m] was printed. *)
Definition printed (m : message) (w : World) : World :=
  set_stdout (stdout w ++ [m]) w.

(** The value of the variant's ingredient list in the attributes of an item:
    [item.ProductSkus[size_idx]['Ingredients']]. *)
Definition variant_ingredients (attrs : dict) (size_idx : Z) : result json :=
  match getattr attrs "ProductSkus" with
  | Ok skus =>
      match getitem_int skus size_idx with
      | Ok sku => getitem_str sku "Ingredients"
      | Raise e => Raise e
      end
  | Raise e => Raise e
  end.

(** [item.ProductSkus[size_idx]['Ingredients']] for the Item of identity
    [item] in the world [w]. *)
Definition Item_ingredients (w : World) (item : nat) (size_idx : Z) : result json :=
  match item_heap w !! item with
  | Some attrs => variant_ingredients attrs size_idx
  | None => Raise DanglingReference
  end.

(** ** The flatten order of a catalog *)

(** The objects a loop over [v] visits, none when [v] raised or cannot be
    iterated. *)
Definition elements (v : result json) : list json :=
  match v with
  | Ok x => match py_iter x with Ok l => l | Raise _ => [] end
  | Raise _ => []
  end.

(** The products of a subcategory, of a category group and of a catalog,
    each paired with its subcategory: category group first, then
    subcategory, then product, in response order. *)
Definition subcategory_products (i : json) : list (json * json) :=
  p ← elements (getitem_str i "Products"); [(i, p)].

Definition group_products (item : json) : list (json * json) :=
  i ← elements (getitem_str item "Subcategories"); subcategory_products i.

Definition flatten_order (catalog : json) : list (json * json) :=
  item ← elements (Ok catalog); group_products item.

(** The menu category of the products of subcategory [i]: [i['Type']]. *)
Definition category_of (i : json) : option hkey :=
  match getitem_str i "Type" with
  | Ok type => match py_hashable type with Ok c => Some c | Raise _ => None end
  | Raise _ => None
  end.

(** Where the products go when the first of them becomes the Item of
    identity [first]: the k-th one becomes the Item [first + k] of its
    category. *)
Definition placed (first : nat) (prods : list (json * json)) : list (option hkey * nat) :=
  imap (λ k ip, (category_of ip.1, first + k)) prods.

(** [item.idx] for the Item of identity [item]. *)
Definition Item_idx (w : World) (item : nat) : option json :=
  attrs ← item_heap w !! item; dict_get "idx" attrs.

(** The loop invariant of [get_menu] once the products [done] have been
    visited, the first of them allocated at [first]. *)
Record menu_inv (first : nat) (done : list (json * json)) (idx : Z) (s : State) : Prop :=
  mk_menu_inv {
  inv_idx : idx = Z.of_nat (length done);
  inv_next : next_id s.2 = first + length done;
  inv_heap : ∀ k i p, done !! k = Some (i, p) →
    ∃ pd c, p = JDict pd ∧ category_of i = Some c ∧
      item_heap s.2 !! (first + k) = Some (dict_set "idx" (JInt (Z.of_nat k)) pd);
  inv_menu : ∀ c,
    itemsInCategory (menu s.1) c = (filter (λ e, e.1 = Some c) (placed first done)).*2
}.

(** What holds of the menu at every point of [get_menu] after its first
    statement, whether the call goes on or raises: its items were all created
    since then ([first] is the identity the next new object had at the
    call), and it is the empty menu as long as no object was created. *)
Record menu_fresh (first : nat) (s : State) : Prop := mk_menu_fresh {
  fresh_next : (first ≤ next_id s.2)%nat;
  fresh_items : ∀ c item,
    item ∈ itemsInCategory (menu s.1) c → (first ≤ item < next_id s.2)%nat;
  fresh_empty : next_id s.2 = first → menu s.1 = Menu_new
}.

(** ** Relations between the world before and after an operation *)

(** At most one call of [self.sess.get] or [self.sess.post] was made
    between [w] and [w']. *)
Definition sends_at_most_one (w w' : World) : Prop :=
  ∃ l, log w' = log w ++ l ∧ (length l ≤ 1)%nat.


(** The Items that existed in [w] are the same in [w'], and no identity was
    given back. *)
Definition items_kept (w w' : World) : Prop :=
  (next_id w ≤ next_id w')%nat ∧
  ∀ i, i < next_id w → item_heap w' !! i = item_heap w !! i.

(** ** Catalogs [get_menu] can walk *)

Definition is_Ok {A} (r : result A) : Prop := ∃ a, r = Ok a.

(** A product the innermost loop accepts: an object without a key [self]. *)
Definition product_ok (p : json) : Prop :=
  ∃ pd, p = JDict pd ∧ dict_has "self" pd = false.

(** A subcategory whose [Type] can be a key of the menu. *)
Definition type_ok (i : json) : Prop :=
  ∃ type c, getitem_str i "Type" = Ok type ∧ py_hashable type = Ok c.

(** A subcategory the middle loop accepts: its [Products] can be iterated
    and are accepted, and it has a usable [Type] unless it has no product. *)
Definition subcategory_ok (i : json) : Prop :=
  ∃ products ps,
    getitem_str i "Products" = Ok products ∧ py_iter products = Ok ps ∧
    Forall (λ p, product_ok p ∧ type_ok i) ps.

(** A category group the outer loop accepts. *)
Definition group_ok (item : json) : Prop :=
  ∃ subcategories l,
    getitem_str item "Subcategories" = Ok subcategories ∧
    py_iter subcategories = Ok l ∧ Forall subcategory_ok l.

Definition catalog_ok (catalog : json) : Prop :=
  ∃ groups, py_iter catalog = Ok groups ∧ Forall group_ok groups.

(** The menu after [addItem] was called for each pair of [l] in turn. *)
Definition Menu_of (l : list (hkey * nat)) : Menu :=
  foldl (λ m e, Menu_addItem e.1 e.2 m) Menu_new l.

(** The call [add_item] is to make for a side, written out field by field
    from lines 195-221 of the source, independently of [add_item]'s model
    above: the url, the content type, and the body with its three entries. *)
Definition add_product (sku_id : json) (jar : list cookie) : request :=
  {| rq_method := POST;
     rq_url := "https://www.dominos.co.uk//Basket/AddProduct/";
     rq_params := [];
     rq_headers := [("content-type", "application/json; charset=utf-8")];
     rq_data :=
       Some (JDict [("ProductSkuId", sku_id);
                    ("Quantity", JInt 1);
                    ("ComplimentaryItems", JList [])]);
     rq_cookies := jar |}.

(** The Item [item] of [w] is a pizza with product id [product_id] whose
    variant at [size_idx] has the ingredients [own]. *)
Definition pizza_variant (w : World) (item : nat) (size_idx : Z)
    (product_id : json) (own : list json) : Prop :=
  ∃ attrs skus sku,
    item_heap w !! item = Some attrs ∧
    getattr attrs "Type" = Ok (JStr "Pizza") ∧
    getattr attrs "ProductSkus" = Ok skus ∧
    getitem_int skus size_idx = Ok sku ∧
    getitem_str sku "Ingredients" = Ok (JList own) ∧
    getattr attrs "ProductId" = Ok product_id.

(** The state after [n] calls [add_item(item, size_idx)] in a row. *)
Fixpoint add_item_times (n : nat) (item : nat) (size_idx : Z) (s : State) : State :=
  match n with
  | 0 => s
  | S n => add_item_times n item size_idx (add_item item size_idx s).2
  end.

(** A name without two leading underscores: the classes [Item], [Basket]
    and [object] define no such name, so reading it from an instance looks
    in the instance's own dictionary and nowhere else. *)
Definition plain_name (name : string) : bool :=
  negb (String.prefix "__" name).

(** ** Sample data *)

Definition westminster : json :=
  JDict [("Id", JInt 28162); ("Name", JStr "Westminster")].
Definition pimlico : json :=
  JDict [("Id", JInt 28172); ("Name", JStr "Pimlico")].

(** A client that searched its stores and holds a session cookie, but has
    no store context yet. *)
Definition searched : Dominos :=
  mkDominos ["ASP.NET_SessionId=k3"] [westminster; pimlico] JNull Menu_new None.

(** A world where nothing was allocated or sent, and the site will answer
    with [replies]. *)
Definition world_of (replies : list reply) : World :=
  mkWorld ∅ ∅ 0 replies [] 1425168000 [].

(** A pizza with two sizes and a side, as [get_menu] builds them. *)
Definition margherita : dict :=
  [("ProductId", JInt 12); ("Name", JStr "Original Cheese & Tomato");
   ("Type", JStr "Pizza");
   ("ProductSkus",
    JList [JDict [("ProductSkuId", JInt 120); ("Ingredients", JList [JInt 7])];
           JDict [("ProductSkuId", JInt 121); ("Ingredients", JList [JInt 7; JInt 9])]]);
   ("idx", JInt 0)].

Definition garlic_bread : dict :=
  [("ProductId", JInt 51); ("Name", JStr "Garlic Pizza Bread");
   ("Type", JStr "Side");
   ("ProductSkus", JList [JDict [("ProductSkuId", JInt 510)]]);
   ("idx", JInt 1)].

(** The basket the site returns: one line. *)
Definition one_line_basket : dict :=
  [("Items", JList [JDict [("BasketItemId", JInt 3); ("Title", JStr "Garlic Pizza Bread")]]);
   ("Total", JInt 399)].

(** A client with a menu of the two items and a basket, and the world that
    holds them: the items are 0 and 1, the basket is 2. *)
Definition ordering : Dominos :=
  mkDominos ["ASP.NET_SessionId=k3"] [westminster; pimlico] (JStr "635603832000000000")
    (Menu_addItem (HStr "Side") 1 (Menu_addItem (HStr "Pizza") 0 Menu_new))
    (Some 2).

Definition shop (replies : list reply) : World :=
  mkWorld (<[1 := garlic_bread]> (<[0 := margherita]> ∅))
          (<[2 := one_line_basket]> ∅) 3 replies [] 1425168000 [].

(** A catalog of two category groups: pizzas and a side, then a pizza. *)
Definition sample_product (id : Z) (name : string) : json :=
  JDict [("ProductId", JInt id); ("Name", JStr name);
         ("ProductSkus", JList [JDict [("ProductSkuId", JInt (10 * id));
                                       ("Ingredients", JList [JInt 7])]])].

Definition sample_catalog : json :=
  JList
    [JDict [("Name", JStr "Speciality");
            ("Subcategories",
             JList [JDict [("Type", JStr "Pizza");
                           ("Products", JList [sample_product 12 "Cheese & Tomato";
                                               sample_product 13 "Pepperoni"])];
                    JDict [("Type", JStr "Side");
                           ("Products", JList [sample_product 51 "Garlic Bread"])]])];
     JDict [("Name", JStr "Create your own");
            ("Subcategories",
             JList [JDict [("Type", JStr "Pizza");
                           ("Products", JList [sample_product 14 "Your Pizza"])]])]].

(** A store context as the site returns it. *)
Definition sample_context : json :=
  JDict [("sessionContext",
          JDict [("menuVersion", JStr "635603832000000000"); ("storeId", JInt 28162)])].

(** A store context whose menu version is empty. *)
Definition empty_version_context : json :=
  JDict [("sessionContext", JDict [("menuVersion", JStr "")])].

(** * Properties *)

(** ** Running the monad *)

Section run.
Context {A B : Type}.
Implicit Types s : State.

Lemma run_bind (c : M A) (f : A → M B) s :
  (c ≫= f) s =
  match c s with (Ok a, s') => f a s' | (Raise e, s') => (Raise e, s') end.
Proof. reflexivity. Qed.

Lemma run_ret (a : A) s : mret (M := M) a s = (Ok a, s).
Proof. reflexivity. Qed.

Lemma run_raise (e : exn) s : raise (A := A) e s = (Raise e, s).
Proof. reflexivity. Qed.

Lemma run_lift (r : result A) s : lift r s = (r, s).
Proof. reflexivity. Qed.
End run.

Lemma run_get_self s : get_self s = (Ok s.1, s).
Proof. reflexivity. Qed.

Lemma run_modify_self f s : modify_self f s = (Ok (), (f s.1, s.2)).
Proof. reflexivity. Qed.

Lemma run_get_world s : get_world s = (Ok s.2, s).
Proof. reflexivity. Qed.

Lemma run_modify_world f s : modify_world f s = (Ok (), (s.1, f s.2)).
Proof. reflexivity. Qed.

Lemma run_send_response m url params headers data s st b ck :
  (next_reply s.2).1 = Response st b ck →
  send m url params headers data s =
  (Ok (mkResponse st b),
   (set_sess (sess s.1 ++ ck) s.1,
    sent (mkRequest m url params headers data (sess s.1)) s.2)).
Proof. intros H. unfold send. rewrite H. reflexivity. Qed.

Lemma run_send_failure m url params headers data s :
  (next_reply s.2).1 = Transport_failure →
  send m url params headers data s =
  (Raise ConnectionError,
   (s.1, sent (mkRequest m url params headers data (sess s.1)) s.2)).
Proof. intros H. unfold send. rewrite H. reflexivity. Qed.

(** Reads the fields of the states that were written. *)
Ltac proj :=
  cbn [fst snd sess stores menu_version menu basket
       set_sess set_stores set_menu_version set_menu set_basket
       item_heap basket_heap next_id net log clock stdout
       set_item_heap set_basket_heap set_next_id set_net set_log set_stdout
       sent status_code body].

(** Runs the steps whose outcome is known, in the goal and in a hypothesis. *)
Ltac run :=
  repeat (progress
    (rewrite ?run_bind, ?run_ret, ?run_raise, ?run_lift, ?run_get_self,
       ?run_modify_self, ?run_get_world, ?run_modify_world; proj)).

Ltac run_in H :=
  repeat (progress
    (rewrite ?run_bind, ?run_ret, ?run_raise, ?run_lift, ?run_get_self,
       ?run_modify_self, ?run_get_world, ?run_modify_world in H;
     cbn [fst snd sess stores menu_version menu basket
          set_sess set_stores set_menu_version set_menu set_basket
          item_heap basket_heap next_id net log clock stdout
          set_item_heap set_basket_heap set_next_id set_net set_log set_stdout
          sent status_code body] in H)).

(** Runs a program along all its paths: a case for each outcome of each
    step that is not known. *)
Ltac case_all :=
  repeat (run;
    match goal with
    | |- context [match ?x with _ => _ end] =>
        lazymatch x with
        | context [match _ with _ => _ end] => fail
        | _ => destruct x eqn:?
        end
    | |- context [if ?x then _ else _] =>
        lazymatch x with
        | context [match _ with _ => _ end] => fail
        | _ => destruct x eqn:?
        end
    end); run.

(** ** [get_menu] without a menu version *)

(** C1: while [menu_version] is [None], [get_menu] returns [None] and sends
    nothing: the world, and with it the log of requests and the replies still
    to come, is the one it started from. *)
Theorem get_menu_without_version store d w :
  menu_version d = JNull →
  get_menu store (d, w) = (Ok None, (set_menu Menu_new d, w)) ∧
  log (get_menu store (d, w)).2.2 = log w.
Proof.
  intros H.
  assert (get_menu store (d, w) = (Ok None, (set_menu Menu_new d, w))) as ->; [|done].
  unfold get_menu. run. rewrite H. reflexivity.
Qed.

Lemma get_menu_without_version_witness :
  get_menu westminster (searched, world_of [Response 200 (Some (JList [])) []]) =
    (Ok None, (searched, world_of [Response 200 (Some (JList [])) []])) ∧
  log (get_menu westminster
         (searched, world_of [Response 200 (Some (JList [])) []])).2.2 = [].
Proof.
  apply (get_menu_without_version westminster searched
           (world_of [Response 200 (Some (JList [])) []])).
  reflexivity.
Defined.

(** ** [select_store] *)

Lemma list_getitem_nonneg {A} (l : list A) (i : Z) x :
  (0 ≤ i)%Z → l !! Z.to_nat i = Some x → list_getitem l i = Ok x.
Proof.
  intros Hi Hx. pose proof (lookup_lt_Some _ _ _ Hx) as Hlt.
  unfold list_getitem.
  destruct (Z.ltb_spec i 0) as [?|_]; [lia|].
  destruct (Z.ltb_spec i 0) as [?|_]; [lia|].
  destruct (Z.leb_spec (Z.of_nat (length l)) i) as [?|_]; [lia|].
  cbn. by rewrite Hx.
Qed.

Lemma list_getitem_negative {A} (l : list A) (i : Z) x :
  (i < 0)%Z → (0 ≤ Z.of_nat (length l) + i)%Z →
  l !! Z.to_nat (Z.of_nat (length l) + i) = Some x → list_getitem l i = Ok x.
Proof.
  intros Hi Hn Hx. pose proof (lookup_lt_Some _ _ _ Hx) as Hlt.
  unfold list_getitem.
  destruct (Z.ltb_spec i 0) as [_|?]; [|lia].
  destruct (Z.ltb_spec (i + Z.of_nat (length l)) 0) as [?|_]; [lia|].
  destruct (Z.leb_spec (Z.of_nat (length l)) (i + Z.of_nat (length l))) as [?|_]; [lia|].
  cbn. replace (i + Z.of_nat (length l))%Z with (Z.of_nat (length l) + i)%Z by lia.
  by rewrite Hx.
Qed.

Lemma list_getitem_out_of_range {A} (l : list A) (i : Z) :
  (i < - Z.of_nat (length l) ∨ Z.of_nat (length l) ≤ i)%Z →
  list_getitem l i = Raise IndexError.
Proof.
  intros Hi. unfold list_getitem.
  destruct (Z.ltb_spec i 0) as [?|?].
  - destruct (Z.ltb_spec (i + Z.of_nat (length l)) 0) as [_|?]; [done|lia].
  - destruct (Z.ltb_spec i 0) as [?|_]; [lia|].
    destruct (Z.leb_spec (Z.of_nat (length l)) i) as [_|?]; [done|lia].
Qed.

Lemma list_getitem_Ok_inv {A} (l : list A) (i : Z) x :
  list_getitem l i = Ok x →
  ∃ j : nat, l !! j = Some x ∧
    Z.of_nat j = (if (i <? 0)%Z then i + Z.of_nat (length l) else i)%Z.
Proof.
  unfold list_getitem.
  set (j := if (i <? 0)%Z then (i + Z.of_nat (length l))%Z else i).
  destruct (Z.ltb_spec j 0) as [?|?]; [done|].
  destruct (Z.leb_spec (Z.of_nat (length l)) j) as [?|?]; [done|].
  cbn. destruct (l !! Z.to_nat j) as [y|] eqn:E; [|done].
  intros [= ->]. exists (Z.to_nat j). split; [done|lia].
Qed.

(** C5, amended: [select_store] is the list subscript of Python. An index
    [0 <= i < len] returns the i-th store, an index [-len <= i < 0] returns
    the store at [len + i], and every other integer raises [IndexError]. In
    all three cases neither the client nor the world changes: nothing is
    sent, received or printed. *)
Theorem select_store_subscript d w (i : Z) :
  let n := Z.of_nat (length (stores d)) in
  ((0 ≤ i < n)%Z →
     ∃ x, stores d !! Z.to_nat i = Some x ∧
          select_store i (d, w) = (Ok x, (d, w))) ∧
  ((- n ≤ i < 0)%Z →
     ∃ x, stores d !! Z.to_nat (n + i) = Some x ∧
          select_store i (d, w) = (Ok x, (d, w))) ∧
  ((i < - n ∨ n ≤ i)%Z →
     select_store i (d, w) = (Raise IndexError, (d, w))).
Proof.
  intros n. unfold select_store. run. subst n. repeat split.
  - intros Hi. destruct (stores d !! Z.to_nat i) as [x|] eqn:E.
    + exists x. split; [done|]. by rewrite (list_getitem_nonneg _ _ x) by (done || lia).
    + apply lookup_ge_None in E. lia.
  - intros Hi.
    destruct (stores d !! Z.to_nat (Z.of_nat (length (stores d)) + i)) as [x|] eqn:E.
    + exists x. split; [done|]. by rewrite (list_getitem_negative _ _ x) by (done || lia).
    + apply lookup_ge_None in E. lia.
  - intros Hi. by rewrite list_getitem_out_of_range.
Qed.

Lemma select_store_subscript_witness :
  select_store 1 (searched, world_of []) = (Ok pimlico, (searched, world_of [])) ∧
  select_store (-2) (searched, world_of []) = (Ok westminster, (searched, world_of [])) ∧
  select_store 2 (searched, world_of []) = (Raise IndexError, (searched, world_of [])).
Proof.
  split; [|split].
  - destruct (select_store_subscript searched (world_of []) 1) as (H & _ & _).
    destruct H as (x & Hx & ->); [simpl; lia|].
    simpl in Hx. by injection Hx as <-.
  - destruct (select_store_subscript searched (world_of []) (-2)) as (_ & H & _).
    destruct H as (x & Hx & ->); [simpl; lia|].
    simpl in Hx. by injection Hx as <-.
  - destruct (select_store_subscript searched (world_of []) 2) as (_ & _ & H).
    apply H. simpl; lia.
Defined.

(** C5 as stated fails: -1 is outside [0, len) for the two stores found,
    and [select_store(-1)] returns the last of them instead of failing. *)
Lemma select_store_negative_index :
  ¬ (0 ≤ -1 < Z.of_nat (length (stores searched)))%Z ∧
  select_store (-1) (searched, world_of []) = (Ok pimlico, (searched, world_of [])).
Proof. split; [simpl; lia | reflexivity]. Qed.

(** ** [reset_session] *)

Lemma reset_session_unfold d w :
  reset_session (d, w) =
  let w1 := sent (session_expire (sess d)) w in
  match (next_reply w).1 with
  | Transport_failure => (Raise ConnectionError, (d, w1))
  | Response st body ck => (Ok (), (set_sess [] d, w1))
  end.
Proof.
  unfold reset_session, sess_get. run.
  destruct (next_reply w).1 as [|st body ck] eqn:E.
  - by rewrite run_send_failure.
  - rewrite (run_send_response _ _ _ _ _ _ st body ck) by done. by run.
Qed.

(** C9, amended: when the session-expire request is answered, whatever the
    status code and the body of the response, [reset_session] returns
    nothing and leaves an empty cookie jar; when the transport raises, the
    exception reaches the caller and the jar is the old one. The request is
    sent in both cases. *)
Theorem reset_session_outcome d w :
  (∀ st b ck, (next_reply w).1 = Response st b ck →
     reset_session (d, w) = (Ok (), (set_sess [] d, sent (session_expire (sess d)) w))) ∧
  ((next_reply w).1 = Transport_failure →
     reset_session (d, w) =
       (Raise ConnectionError, (d, sent (session_expire (sess d)) w))).
Proof.
  rewrite reset_session_unfold. split.
  - by intros st b ck ->.
  - by intros ->.
Qed.

Lemma reset_session_outcome_witness :
  reset_session (searched, world_of [Response 500 None ["a=1"]]) =
    (Ok (), (set_sess [] searched,
             sent (session_expire (sess searched)) (world_of [Response 500 None ["a=1"]]))) ∧
  reset_session (searched, world_of [Transport_failure]) =
    (Raise ConnectionError,
     (searched, sent (session_expire (sess searched)) (world_of [Transport_failure]))).
Proof.
  split.
  - apply (reset_session_outcome searched (world_of [Response 500 None ["a=1"]]))
      with (st := 500%Z) (b := None) (ck := ["a=1"]).
    reflexivity.
  - apply (reset_session_outcome searched (world_of [Transport_failure])).
    reflexivity.
Defined.

(** C9 as stated fails: when the notification call fails in the transport,
    [reset_session] raises and the client still holds its old cookie. *)
Lemma reset_session_transport_failure :
  (reset_session (searched, world_of [Transport_failure])).1 = Raise ConnectionError ∧
  sess (reset_session (searched, world_of [Transport_failure])).2.1 =
    ["ASP.NET_SessionId=k3"].
Proof. split; reflexivity. Qed.

(** ** Dictionaries and lists *)

Lemma dict_get_set_eq k v d : dict_get k (dict_set k v d) = Some v.
Proof.
  induction d as [|[k' v'] d IH]; simpl.
  - by rewrite String.eqb_refl.
  - destruct (String.eqb k k') eqn:E; simpl; rewrite ?String.eqb_refl, ?E; done.
Qed.

Lemma dict_get_set_ne k k' v d :
  k ≠ k' → dict_get k' (dict_set k v d) = dict_get k' d.
Proof.
  intros Hne. apply String.eqb_neq in Hne.
  induction d as [|[k0 v0] d IH]; simpl.
  - rewrite String.eqb_sym. by rewrite Hne.
  - destruct (String.eqb k k0) eqn:E; simpl.
    + apply String.eqb_eq in E as <-. rewrite String.eqb_sym. by rewrite Hne.
    + by rewrite IH.
Qed.

Lemma run_Item_getattr item name s attrs :
  item_heap s.2 !! item = Some attrs →
  Item_getattr item name s = (getattr attrs name, s).
Proof. intros H. unfold Item_getattr. run. rewrite H. by run. Qed.

Lemma world_same_item_heap w : set_item_heap (item_heap w) w = w.
Proof. by destruct w. Qed.

(** What [add_item] does before posting leaves everything but the items alone. *)
Lemma add_item_payload_frame item size_idx d w :
  ∃ h, (add_item_payload item size_idx (d, w)).2 = (d, set_item_heap h w).
Proof.
  unfold add_item_payload, Item_getattr. case_all;
    try (exists (item_heap w); by rewrite world_same_item_heap);
    try (eexists; proj; reflexivity).
Qed.

Lemma getattr_write_ingredients size_idx new attrs name :
  name ≠ "ProductSkus" →
  getattr (Item_write_ingredients size_idx new attrs) name = getattr attrs name.
Proof.
  intros Hne. unfold Item_write_ingredients.
  destruct (dict_get "ProductSkus" attrs) as [[| | | |skus|]|]; try done.
  destruct (list_getitem skus size_idx) as [[| | | | |sku]|]; try done.
  unfold getattr. by rewrite dict_get_set_ne.
Qed.

Lemma add_item_payload_pizza item size_idx d w attrs skus sku own product_id :
  item_heap w !! item = Some attrs →
  getattr attrs "Type" = Ok (JStr "Pizza") →
  getattr attrs "ProductSkus" = Ok skus →
  getitem_int skus size_idx = Ok sku →
  getitem_str sku "Ingredients" = Ok (JList own) →
  getattr attrs "ProductId" = Ok product_id →
  add_item_payload item size_idx (d, w) =
    (Ok (base_url +:+ "/Basket/AddPizza/",
         Some (pizza_payload size_idx product_id (JList (own ++ [JInt 42; JInt 36])))),
     (d, set_item_heap
           (alter (Item_write_ingredients size_idx (JList (own ++ [JInt 42; JInt 36])))
                  item (item_heap w)) w)).
Proof.
  intros Hitem Htype Hskus Hsku Hown Hid. unfold add_item_payload.
  rewrite run_bind, (run_Item_getattr _ _ _ attrs) by done. rewrite Htype.
  cbn [py_eq_str]. 
  replace (String.eqb "Pizza" "Pizza") with true by reflexivity. cbv iota. 
  rewrite run_bind, (run_Item_getattr _ _ _ attrs) by done. rewrite Hskus.
  run. rewrite Hsku. run. rewrite Hown. run. cbn [iadd_list]. run.
  rewrite (run_Item_getattr _ _ _ (Item_write_ingredients size_idx (JList (own ++ [JInt 42; JInt 36])) attrs)).
  2:{ proj. by rewrite lookup_alter_eq, Hitem. }
  rewrite getattr_write_ingredients by done. rewrite Hid. by run.
Qed.

Lemma run_Basket_new j s :
  Basket_new j s =
  match kwargs j with
  | Ok attrs => (Ok (next_id s.2), (s.1, with_new_basket attrs s.2))
  | Raise e => (Raise e, s)
  end.
Proof. unfold Basket_new. run. destruct (kwargs j); by run. Qed.

(** The [try] block that stores the basket of a response, as [get_basket]
    and [add_item] have it. *)
Lemma run_try_store_basket r s :
  try_except
    (j ← lift (response_json r);
     b ← Basket_new j;
     modify_self (set_basket b);;
     mret true)
    (mret false) s =
  match body r with
  | Some j =>
      match kwargs j with
      | Ok attrs => (Ok true, (set_basket (next_id s.2) s.1, with_new_basket attrs s.2))
      | Raise _ => (Ok false, s)
      end
  | None => (Ok false, s)
  end.
Proof.
  unfold try_except, response_json.
  destruct (body r) as [j|]; run; [|done].
  rewrite run_Basket_new. destruct (kwargs j); by run.
Qed.

(** [add_item] from the post on. *)
Lemma add_item_unfold item size_idx s :
  add_item item size_idx s =
  match add_item_payload item size_idx s with
  | (Ok (url, Some payload), s1) =>
      let rq := mkRequest POST url [] json_headers (Some payload) (sess s1.1) in
      match (next_reply s1.2).1 with
      | Transport_failure => (Raise ConnectionError, (s1.1, sent rq s1.2))
      | Response st b ck =>
          let s2 := (set_sess (sess s1.1 ++ ck) s1.1, sent rq s1.2) in
          if (st =? 200)%Z then
            match b with
            | Some j =>
                match kwargs j with
                | Ok attrs =>
                    (Ok true, (set_basket (next_id s2.2) s2.1, with_new_basket attrs s2.2))
                | Raise _ => (Ok false, s2)
                end
            | None => (Ok false, s2)
            end
          else (Ok false, s2)
      end
  | (Ok (url, None), s1) => (Raise UnboundLocalError, s1)
  | (Raise e, s1) => (Raise e, s1)
  end.
Proof.
  unfold add_item. rewrite run_bind.
  destruct (add_item_payload item size_idx s) as [[[url [payload|]]|e] s1]; [|done..].
  run. unfold sess_post.
  destruct ((next_reply s1.2).1) as [|st b ck] eqn:E.
  - by rewrite run_send_failure.
  - rewrite (run_send_response _ _ _ _ _ _ st b ck) by done.
    cbn [status_code]. destruct (st =? 200)%Z; cbn [negb]; [|reflexivity].
    by rewrite run_try_store_basket.
Qed.

(** ** [add_item] *)

(** C3: for an item whose [Type] is ['Pizza'] and a size index that selects
    a variant with an ingredient list [own], the request [add_item] posts
    carries the ingredients [own] followed by 42 and 36, whatever [own]
    holds: it is the call [add_pizza] spells out, entry by entry. [add_item]
    has no parameter through which the two ids could be changed. *)
Theorem add_item_pizza_ingredients item size_idx d w attrs skus sku own product_id :
  item_heap w !! item = Some attrs →
  getattr attrs "Type" = Ok (JStr "Pizza") →
  getattr attrs "ProductSkus" = Ok skus →
  getitem_int skus size_idx = Ok sku →
  getitem_str sku "Ingredients" = Ok (JList own) →
  getattr attrs "ProductId" = Ok product_id →
  log (add_item item size_idx (d, w)).2.2 =
    log w ++ [add_pizza size_idx product_id (own ++ [JInt 42; JInt 36]) (sess d)].
Proof.
  intros Hitem Htype Hskus Hsku Hown Hid.
  rewrite add_item_unfold.
  rewrite (add_item_payload_pizza _ _ _ _ attrs skus sku own product_id) by done.
  cbv zeta. proj.
  destruct (next_reply _).1 as [|st b ck]; [done|].
  destruct (st =? 200)%Z; [|done].
  destruct b as [j|]; [|done]. by destruct (kwargs j).
Qed.

Lemma add_item_pizza_ingredients_witness :
  log (add_item 0 1 (ordering, shop [Response 200 (Some (JDict one_line_basket)) []])).2.2 =
    [add_pizza 1 (JInt 12) [JInt 7; JInt 9; JInt 42; JInt 36] (sess ordering)].
Proof.
  apply (add_item_pizza_ingredients 0 1 ordering
           (shop [Response 200 (Some (JDict one_line_basket)) []])
           margherita
           (JList [JDict [("ProductSkuId", JInt 120); ("Ingredients", JList [JInt 7])];
                   JDict [("ProductSkuId", JInt 121); ("Ingredients", JList [JInt 7; JInt 9])]])
           (JDict [("ProductSkuId", JInt 121); ("Ingredients", JList [JInt 7; JInt 9])])
           [JInt 7; JInt 9] (JInt 12)); reflexivity.
Defined.

(** C4: when [add_item] gets as far as posting and the response has a status
    other than 200 or a body that is not JSON, it returns [False] and the
    client's basket is the same object with the same contents. In every
    call, either the basket is left like that or the response was a 200 with
    a JSON object, [add_item] returns [True] and the basket is a new object
    built from that JSON. *)
Theorem add_item_basket d w item size_idx :
  let out := add_item item size_idx (d, w) in
  (∀ url payload s1 st b ck,
     add_item_payload item size_idx (d, w) = (Ok (url, Some payload), s1) →
     (next_reply w).1 = Response st b ck →
     st ≠ 200%Z ∨ b = None →
     out.1 = Ok false ∧ basket out.2.1 = basket d ∧ basket_heap out.2.2 = basket_heap w) ∧
  ((basket out.2.1 = basket d ∧ basket_heap out.2.2 = basket_heap w) ∨
   (∃ j ck attrs,
      (next_reply w).1 = Response 200 (Some j) ck ∧ kwargs j = Ok attrs ∧
      out.1 = Ok true ∧ basket out.2.1 = Some (next_id w) ∧
      basket_heap out.2.2 = <[next_id w := attrs]> (basket_heap w))).
Proof.
  intros out. subst out. rewrite add_item_unfold.
  destruct (add_item_payload_frame item size_idx d w) as [h Hs1].
  destruct (add_item_payload item size_idx (d, w)) as [[[url [payload|]]|e] s1];
    cbn [snd] in Hs1; subst s1; cbv zeta; proj.
  - replace (next_reply (set_item_heap h w)) with (next_reply w) by reflexivity.
    split.
    + intros url' payload' s1 st b ck _ -> Hfail.
      destruct (Z.eqb_spec st 200) as [->|Hne].
      * destruct Hfail as [?| ->]; done.
      * done.
    + destruct (next_reply w).1 as [|st b ck]; [by left|].
      destruct (Z.eqb_spec st 200) as [->|Hne]; [|by left].
      destruct b as [j|]; [|by left].
      destruct (kwargs j) as [attrs|] eqn:Hj; [|by left].
      right. by exists j, ck, attrs.
  - split; [done|by left].
  - split; [done|by left].
Qed.

Lemma list_getitem_setitem {A} (l : list A) (i : Z) x y :
  list_getitem l i = Ok x → list_getitem (list_setitem l i y) i = Ok y.
Proof.
  unfold list_getitem, list_setitem.
  set (j := if (i <? 0)%Z then (i + Z.of_nat (length l))%Z else i).
  destruct ((j <? 0)%Z || (Z.of_nat (length l) <=? j)%Z) eqn:E; [done|].
  intros _. rewrite length_insert. fold j. rewrite E.
  rewrite list_lookup_insert_eq; [done|].
  apply orb_false_iff in E as [E1 E2].
  apply Z.ltb_ge in E1. apply Z.leb_gt in E2. lia.
Qed.

(** After [add_item] on a pizza the item itself holds the extended list. *)
Lemma item_heap_add_item_pizza item size_idx d w attrs skus sku own product_id :
  item_heap w !! item = Some attrs →
  getattr attrs "Type" = Ok (JStr "Pizza") →
  getattr attrs "ProductSkus" = Ok skus →
  getitem_int skus size_idx = Ok sku →
  getitem_str sku "Ingredients" = Ok (JList own) →
  getattr attrs "ProductId" = Ok product_id →
  Item_ingredients (add_item item size_idx (d, w)).2.2 item size_idx =
    Ok (JList (own ++ [JInt 42; JInt 36])).
Proof.
  intros Hitem Htype Hskus Hsku Hown Hid.
  set (new := JList (own ++ [JInt 42; JInt 36])).
  assert (item_heap (add_item item size_idx (d, w)).2.2 !! item =
          Some (Item_write_ingredients size_idx new attrs)) as Hheap.
  { rewrite add_item_unfold.
    rewrite (add_item_payload_pizza _ _ _ _ attrs skus sku own product_id) by done.
    cbv zeta. proj.
    assert (alter (Item_write_ingredients size_idx new) item (item_heap w) !! item =
            Some (Item_write_ingredients size_idx new attrs)) as Halter
      by (by rewrite lookup_alter_eq, Hitem).
    destruct (next_reply _).1 as [|st b ck]; [done|].
    destruct (st =? 200)%Z; [|done].
    destruct b as [j|]; [|done]. by destruct (kwargs j). }
  unfold Item_ingredients. rewrite Hheap.
  unfold getattr in Hskus. destruct (dict_get "ProductSkus" attrs) as [skus'|] eqn:E; [|done].
  injection Hskus as ->.
  destruct skus as [| | |s|l|]; try done.
  - (* a string: its characters have no ingredients *)
    cbn [getitem_int] in Hsku. apply list_getitem_Ok_inv in Hsku as (j & Hj & _).
    apply list_lookup_fmap_Some in Hj as (c & -> & _). done.
  - cbn [getitem_int] in Hsku.
    destruct sku as [| | | | |sd]; try done.
    unfold Item_write_ingredients, variant_ingredients, getattr. rewrite E, Hsku.
    rewrite dict_get_set_eq. cbn [getitem_int].
    rewrite (list_getitem_setitem _ _ (JDict sd)) by done.
    cbn [getitem_str]. by rewrite dict_get_set_eq.
Qed.

(** C6 does not hold of the code: [add_item] on a pizza extends the ingredient
    list of the size variant inside the Item it was given. In the sample
    menu the first variant of the pizza has ingredients [7]; after one
    [add_item] the item holds [7, 42, 36], and a second [add_item] of the
    same item posts [7, 42, 36, 42, 36]. *)
Example add_item_extends_the_item :
  let s0 := (ordering, shop [Response 200 (Some (JDict one_line_basket)) [];
                             Response 200 (Some (JDict one_line_basket)) []]) in
  let s1 := (add_item 0 0 s0).2 in
  let s2 := (add_item 0 0 s1).2 in
  Item_ingredients s0.2 0 0 = Ok (JList [JInt 7]) ∧
  Item_ingredients s1.2 0 0 = Ok (JList [JInt 7; JInt 42; JInt 36]) ∧
  item_heap s1.2 !! 0 ≠ item_heap s0.2 !! 0 ∧
  log s2.2 =
    [add_pizza 0 (JInt 12) [JInt 7; JInt 42; JInt 36] (sess ordering);
     add_pizza 0 (JInt 12) [JInt 7; JInt 42; JInt 36; JInt 42; JInt 36] (sess ordering)].
Proof. repeat split; try reflexivity. vm_compute. discriminate. Qed.

Lemma add_item_basket_witness :
  (add_item 1 0 (ordering, shop [Response 500 None []])).1 = Ok false ∧
  basket (add_item 1 0 (ordering, shop [Response 500 None []])).2.1 = Some 2 ∧
  basket_heap (add_item 1 0 (ordering, shop [Response 500 None []])).2.2 =
    basket_heap (shop [Response 500 None []]).
Proof.
  destruct (add_item_basket ordering (shop [Response 500 None []]) 1 0) as [H _].
  eapply H; [reflexivity | reflexivity | left; done].
Defined.

(** ** [remove_item] *)

Lemma run_Item_new j s :
  Item_new j s =
  match kwargs j with
  | Ok attrs => (Ok (next_id s.2), (s.1, with_new_item attrs s.2))
  | Raise e => (Raise e, s)
  end.
Proof. unfold Item_new. run. destruct (kwargs j); by run. Qed.

Lemma run_Basket_getattr b name s attrs :
  basket_heap s.2 !! b = Some attrs →
  Basket_getattr b name s = (getattr attrs name, s).
Proof. intros H. unfold Basket_getattr. run. rewrite H. by run. Qed.

Lemma run_print m s : print m s = (Ok (), (s.1, printed m s.2)).
Proof. reflexivity. Qed.

(** [remove_item] on a basket whose position [i] holds a line item. *)
Lemma remove_item_unfold d w i b battrs lines line lattrs bid :
  basket d = Some b →
  basket_heap w !! b = Some battrs →
  getattr battrs "Items" = Ok lines →
  getitem_int lines i = Ok line →
  kwargs line = Ok lattrs →
  getattr lattrs "BasketItemId" = Ok bid →
  remove_item i (d, w) =
  let w1 := sent (remove_basket_item bid (sess d)) (with_new_item lattrs w) in
  match (next_reply w).1 with
  | Transport_failure => (Raise ConnectionError, (d, w1))
  | Response st body ck =>
      let d1 := set_sess (sess d ++ ck) d in
      if (st =? 200)%Z then
        match body ≫= (λ j, match kwargs j with Ok a => Some a | Raise _ => None end) with
        | Some attrs =>
            let s2 := (set_basket (next_id w1) d1, with_new_basket attrs w1) in
            match getattr lattrs "Title" with
            | Ok title => (Ok (), (s2.1, printed (OK_removed title) s2.2))
            | Raise e => (Raise e, s2)
            end
        | None => (Ok (), (d1, printed Error_invalid_response w1))
        end
      else (Ok (), (d1, printed Error_connection_failed w1))
  end.
Proof.
  intros Hb Hbattrs Hlines Hline Hlattrs Hbid.
  unfold remove_item, self_basket. run. rewrite Hb. run.
  rewrite (run_Basket_getattr _ _ _ battrs) by done. rewrite Hlines. run.
  rewrite Hline. run. rewrite run_Item_new, Hlattrs. run.
  rewrite (run_Item_getattr _ _ _ lattrs) by (proj; apply lookup_insert_eq).
  rewrite Hbid. run. unfold sess_get.
  replace (next_reply w) with (next_reply (with_new_item lattrs w)) by reflexivity.
  destruct (next_reply (with_new_item lattrs w)).1 as [|st body ck] eqn:E.
  - by rewrite run_send_failure.
  - rewrite (run_send_response _ _ _ _ _ _ st body ck) by done. run.
    destruct (st =? 200)%Z; cbn [negb]; [|by rewrite run_print].
    unfold try_except, response_json. proj.
    destruct body as [j|]; run; [|by rewrite run_print].
    rewrite run_Basket_new. cbn [mbind option_bind].
    destruct (kwargs j) as [attrs|]; run; [|by rewrite run_print].
    rewrite (run_Item_getattr _ _ _ lattrs) by (proj; apply lookup_insert_eq).
    destruct (getattr lattrs "Title"); run; [by rewrite run_print|done].
Qed.

(** C8: when position [i] of the basket holds a line item, [remove_item(i)]
    sends the removal request with that line's own [BasketItemId] and
    [wizardItemDelete] false. When the response is a 200 with a JSON object
    the basket becomes a new object built from it; when the transport fails,
    the status is not 200, the body is not JSON, or the body is JSON that is
    no object to build a Basket from (an array, null, an object with a key
    [self]), the basket is the same object with the same contents (the
    transport failure is raised, the others are printed as errors). *)
Theorem remove_item_by_line_id d w i b battrs lines line lattrs bid :
  basket d = Some b →
  basket_heap w !! b = Some battrs →
  getattr battrs "Items" = Ok lines →
  getitem_int lines i = Ok line →
  kwargs line = Ok lattrs →
  getattr lattrs "BasketItemId" = Ok bid →
  let out := remove_item i (d, w) in
  log out.2.2 = log w ++ [remove_basket_item bid (sess d)] ∧
  (∀ j ck attrs,
     (next_reply w).1 = Response 200 (Some j) ck → kwargs j = Ok attrs →
     basket out.2.1 = Some (S (next_id w)) ∧
     basket_heap out.2.2 = <[S (next_id w) := attrs]> (basket_heap w)) ∧
  ((next_reply w).1 = Transport_failure →
     out.1 = Raise ConnectionError ∧
     basket out.2.1 = basket d ∧ basket_heap out.2.2 = basket_heap w) ∧
  (∀ st body ck,
     (next_reply w).1 = Response st body ck →
     st ≠ 200%Z ∨ body = None ∨ (∃ j e, body = Some j ∧ kwargs j = Raise e) →
     out.1 = Ok () ∧
     basket out.2.1 = basket d ∧ basket_heap out.2.2 = basket_heap w ∧
     stdout out.2.2 =
       stdout w ++ [if (st =? 200)%Z then Error_invalid_response
                    else Error_connection_failed]).
Proof.
  intros Hb Hbattrs Hlines Hline Hlattrs Hbid out. subst out.
  rewrite (remove_item_unfold d w i b battrs lines line lattrs bid) by done.
  cbv zeta. split; [|split; [|split]].
  - destruct (next_reply w).1 as [|st body ck]; [done|].
    destruct (st =? 200)%Z; [|done].
    destruct (body ≫= _); [|done]. by destruct (getattr lattrs "Title").
  - intros j ck attrs -> Hj. cbn [Z.eqb Pos.eqb mbind option_bind]. rewrite Hj.
    by destruct (getattr lattrs "Title").
  - by intros ->.
  - intros st body ck -> Hfail.
    destruct (Z.eqb_spec st 200) as [->|Hne]; [|done].
    destruct Hfail as [?|[->|(j & e & -> & Hj)]]; [done..|].
    cbn [mbind option_bind]. by rewrite Hj.
Qed.

Lemma remove_item_by_line_id_witness :
  log (remove_item 0 (ordering, shop [Response 200 (Some (JDict [("Items", JList [])])) []])).2.2 =
    [remove_basket_item (JInt 3) (sess ordering)] ∧
  basket (remove_item 0 (ordering, shop [Response 200 (Some (JDict [("Items", JList [])])) []])).2.1 =
    Some 4 ∧
  basket (remove_item 0 (ordering, shop [Response 200 (Some (JList [])) []])).2.1 = Some 2 ∧
  stdout (remove_item 0 (ordering, shop [Response 200 (Some (JList [])) []])).2.2 =
    [Error_invalid_response].
Proof.
  assert (basket (remove_item 0 (ordering, shop [Response 200 (Some (JList [])) []])).2.1 =
            Some 2 ∧
          stdout (remove_item 0 (ordering, shop [Response 200 (Some (JList [])) []])).2.2 =
            [Error_invalid_response]) as [Hkept Hprinted].
  { destruct (remove_item_by_line_id ordering
                (shop [Response 200 (Some (JList [])) []]) 0 2
                one_line_basket
                (JList [JDict [("BasketItemId", JInt 3); ("Title", JStr "Garlic Pizza Bread")]])
                (JDict [("BasketItemId", JInt 3); ("Title", JStr "Garlic Pizza Bread")])
                [("BasketItemId", JInt 3); ("Title", JStr "Garlic Pizza Bread")]
                (JInt 3)) as (_ & _ & _ & Hfail); [reflexivity..|].
    destruct (Hfail 200%Z (Some (JList [])) []) as (_ & Hb & _ & Hout); [reflexivity| |].
    - right. right. by exists (JList []), TypeError.
    - by split. }
  destruct (remove_item_by_line_id ordering
              (shop [Response 200 (Some (JDict [("Items", JList [])])) []]) 0 2
              one_line_basket
              (JList [JDict [("BasketItemId", JInt 3); ("Title", JStr "Garlic Pizza Bread")]])
              (JDict [("BasketItemId", JInt 3); ("Title", JStr "Garlic Pizza Bread")])
              [("BasketItemId", JInt 3); ("Title", JStr "Garlic Pizza Bread")]
              (JInt 3)) as (Hlog & Hok & _ & _); [reflexivity..|].
  split; [exact Hlog|]. split; [|by split].
  by destruct (Hok (JDict [("Items", JList [])]) [] [("Items", JList [])]) as [-> _].
Defined.

(** ** The other operations, unfolded *)

Lemma get_store_context_unfold d w :
  get_store_context (d, w) =
  let w1 := sent (store_context_request (clock w) (sess d)) w in
  match (next_reply w).1 with
  | Transport_failure => (Raise ConnectionError, (d, w1))
  | Response st body ck =>
      let d1 := set_sess (sess d ++ ck) d in
      match body with
      | None => (Ok false, (d1, w1))
      | Some context =>
          match getitem_str context "sessionContext" with
          | Ok session_context =>
              match getitem_str session_context "menuVersion" with
              | Ok version => (Ok true, (set_menu_version version d1, w1))
              | Raise e => (Raise e, (d1, w1))
              end
          | Raise e => (Raise e, (d1, w1))
          end
      end
  end.
Proof.
  unfold get_store_context, get_epoch, sess_get. run.
  destruct (next_reply w).1 as [|st body ck] eqn:E.
  - by rewrite run_send_failure.
  - rewrite (run_send_response _ _ _ _ _ _ st body ck) by done. run.
    unfold try_except, response_json. proj.
    destruct body as [context|]; run; [|done].
    destruct (getitem_str context "sessionContext") as [sc|]; run; [|done].
    destruct (getitem_str sc "menuVersion"); by run.
Qed.

Lemma get_basket_unfold d w :
  get_basket (d, w) =
  let w1 := sent (basket_request (sess d)) w in
  match (next_reply w).1 with
  | Transport_failure => (Raise ConnectionError, (d, w1))
  | Response st body ck =>
      let d1 := set_sess (sess d ++ ck) d in
      match body ≫= (λ j, match kwargs j with Ok a => Some a | Raise _ => None end) with
      | Some attrs => (Ok true, (set_basket (next_id w) d1, with_new_basket attrs w1))
      | None => (Ok false, (d1, w1))
      end
  end.
Proof.
  unfold get_basket, sess_get. run.
  destruct (next_reply w).1 as [|st body ck] eqn:E.
  - by rewrite run_send_failure.
  - rewrite (run_send_response _ _ _ _ _ _ st body ck) by done.
    rewrite run_try_store_basket. proj.
    destruct body as [j|]; [|done]. cbn [mbind option_bind].
    by destruct (kwargs j).
Qed.

Lemma for_each_append_store (l : list json) s :
  for_each l (λ result, modify_self (λ d, set_stores (stores d ++ [result]) d)) s =
  (Ok (), (set_stores (stores s.1 ++ l) s.1, s.2)).
Proof.
  unfold for_each. revert s. induction l as [|x l IH]; intros [d w]; cbn [foldM]; run.
  - rewrite app_nil_r. by destruct d.
  - rewrite IH. proj. by rewrite <- app_assoc.
Qed.

Lemma search_stores_unfold term d w :
  search_stores term (d, w) =
  let w1 := sent (search_request term (sess d)) w in
  match (next_reply w).1 with
  | Transport_failure => (Raise ConnectionError, (set_stores [] d, w1))
  | Response st body ck =>
      let d1 := set_sess (sess d ++ ck) (set_stores [] d) in
      match body with
      | None => (Raise ValueError, (d1, w1))
      | Some results =>
          match py_iter results with
          | Ok l => (Ok l, (set_stores l d1, w1))
          | Raise e => (Raise e, (d1, w1))
          end
      end
  end.
Proof.
  unfold search_stores, sess_get. run.
  destruct (next_reply w).1 as [|st body ck] eqn:E.
  - by rewrite run_send_failure.
  - rewrite (run_send_response _ _ _ _ _ _ st body ck) by done. run.
    unfold response_json. proj.
    destruct body as [results|]; run; [|done].
    destruct (py_iter results) as [l|]; run; [|done].
    rewrite for_each_append_store. by run.
Qed.

Lemma get_cookie_unfold store postcode d w :
  get_cookie store postcode (d, w) =
  match getitem_str store "Id" with
  | Raise e => (Raise e, (d, w))
  | Ok store_id =>
      let w1 := sent (initialize_request store_id postcode (sess d)) w in
      match (next_reply w).1 with
      | Transport_failure => (Raise ConnectionError, (d, w1))
      | Response st body ck => (Ok (), (set_sess (sess d ++ ck) d, w1))
      end
  end.
Proof.
  unfold get_cookie, sess_get.
  destruct (getitem_str store "Id") as [store_id|]; run; [|done].
  destruct (next_reply w).1 as [|st body ck] eqn:E.
  - by rewrite run_send_failure.
  - rewrite (run_send_response _ _ _ _ _ _ st body ck) by done. by run.
Qed.

(** [get_menu] up to its loops. *)
Lemma get_menu_unfold store d w :
  get_menu store (d, w) =
  let d0 := set_menu Menu_new d in
  if negb (py_truthy (menu_version d)) then (Ok None, (d0, w))
  else
    match getitem_str store "Id" with
    | Raise e => (Raise e, (d0, w))
    | Ok store_id =>
        let w1 := sent (catalog_request (menu_version d) store_id (sess d)) w in
        match (next_reply w).1 with
        | Transport_failure => (Raise ConnectionError, (d0, w1))
        | Response st body ck =>
            let d1 := set_sess (sess d ++ ck) d0 in
            match body with
            | None => (Raise ValueError, (d1, w1))
            | Some catalog =>
                match py_iter catalog with
                | Raise e => (Raise e, (d1, w1))
                | Ok groups =>
                    match foldM get_menu_group 0%Z groups (d1, w1) with
                    | (Ok _, s) => (Ok (Some (menu s.1)), s)
                    | (Raise e, s) => (Raise e, s)
                    end
                end
            end
        end
    end.
Proof.
  unfold get_menu, sess_get. run.
  destruct (negb (py_truthy (menu_version d))); [done|].
  destruct (getitem_str store "Id") as [store_id|]; run; [|done].
  destruct (next_reply w).1 as [|st body ck] eqn:E.
  - by rewrite run_send_failure.
  - rewrite (run_send_response _ _ _ _ _ _ st body ck) by done. run.
    unfold response_json. proj.
    destruct body as [catalog|]; run; [|done].
    destruct (py_iter catalog) as [groups|]; run; [|done].
    destruct (foldM get_menu_group 0%Z groups _) as [[z|e] s]; by run.
Qed.

(** ** Which errors an operation catches *)

(** C7, amended: a response whose body is not JSON is caught inside
    [get_store_context], [get_basket], [add_item] and [remove_item] and
    becomes their failure signal: [False], and for [remove_item], which
    returns no value, the error it prints (the invalid-response error on a
    200, the connection error on another status, where the body is not
    read). It raises [ValueError] out of [search_stores] and [get_menu]. An exception raised by the transport is not caught by any
    operation: it reaches the caller of each of the eight operations that
    send a request. *)
Theorem parse_errors_caught_transport_errors_raised d w :
  (∀ st ck, (next_reply w).1 = Response st None ck →
     (get_store_context (d, w)).1 = Ok false ∧
     (get_basket (d, w)).1 = Ok false ∧
     (∀ item size_idx url payload s1,
        add_item_payload item size_idx (d, w) = (Ok (url, Some payload), s1) →
        (add_item item size_idx (d, w)).1 = Ok false) ∧
     (∀ i b battrs lines line lattrs bid,
        basket d = Some b → basket_heap w !! b = Some battrs →
        getattr battrs "Items" = Ok lines → getitem_int lines i = Ok line →
        kwargs line = Ok lattrs → getattr lattrs "BasketItemId" = Ok bid →
        (remove_item i (d, w)).1 = Ok () ∧
        stdout (remove_item i (d, w)).2.2 =
          stdout w ++ [if (st =? 200)%Z then Error_invalid_response
                       else Error_connection_failed]) ∧
     (∀ term, (search_stores term (d, w)).1 = Raise ValueError) ∧
     (∀ store store_id,
        py_truthy (menu_version d) = true → getitem_str store "Id" = Ok store_id →
        (get_menu store (d, w)).1 = Raise ValueError)) ∧
  ((next_reply w).1 = Transport_failure →
     (reset_session (d, w)).1 = Raise ConnectionError ∧
     (∀ term, (search_stores term (d, w)).1 = Raise ConnectionError) ∧
     (∀ store store_id postcode,
        getitem_str store "Id" = Ok store_id →
        (get_cookie store postcode (d, w)).1 = Raise ConnectionError) ∧
     (get_store_context (d, w)).1 = Raise ConnectionError ∧
     (get_basket (d, w)).1 = Raise ConnectionError ∧
     (∀ store store_id,
        py_truthy (menu_version d) = true → getitem_str store "Id" = Ok store_id →
        (get_menu store (d, w)).1 = Raise ConnectionError) ∧
     (∀ item size_idx url payload s1,
        add_item_payload item size_idx (d, w) = (Ok (url, Some payload), s1) →
        (add_item item size_idx (d, w)).1 = Raise ConnectionError) ∧
     (∀ i b battrs lines line lattrs bid,
        basket d = Some b → basket_heap w !! b = Some battrs →
        getattr battrs "Items" = Ok lines → getitem_int lines i = Ok line →
        kwargs line = Ok lattrs → getattr lattrs "BasketItemId" = Ok bid →
        (remove_item i (d, w)).1 = Raise ConnectionError)).
Proof.
  split.
  - intros st ck Hreply. split_and!.
    + by rewrite get_store_context_unfold, Hreply.
    + by rewrite get_basket_unfold, Hreply.
    + intros item size_idx url payload s1 Hpayload.
      destruct (add_item_payload_frame item size_idx d w) as [h Hs1].
      rewrite add_item_unfold, Hpayload. rewrite Hpayload in Hs1.
      cbn [snd] in Hs1. subst s1. cbv zeta. proj.
      replace (next_reply (set_item_heap h w)) with (next_reply w) by reflexivity.
      rewrite Hreply. by destruct (st =? 200)%Z.
    + intros i b battrs lines line lattrs bid Hb Hbattrs Hlines Hline Hlattrs Hbid.
      rewrite (remove_item_unfold d w i b battrs lines line lattrs bid) by done.
      rewrite Hreply. cbv zeta. by destruct (st =? 200)%Z.
    + intros term. by rewrite search_stores_unfold, Hreply.
    + intros store store_id Hversion Hid.
      by rewrite get_menu_unfold, Hversion, Hid, Hreply.
  - intros Hreply. split_and!.
    + by rewrite reset_session_unfold, Hreply.
    + intros term. by rewrite search_stores_unfold, Hreply.
    + intros store store_id postcode Hid. by rewrite get_cookie_unfold, Hid, Hreply.
    + by rewrite get_store_context_unfold, Hreply.
    + by rewrite get_basket_unfold, Hreply.
    + intros store store_id Hversion Hid.
      by rewrite get_menu_unfold, Hversion, Hid, Hreply.
    + intros item size_idx url payload s1 Hpayload.
      destruct (add_item_payload_frame item size_idx d w) as [h Hs1].
      rewrite add_item_unfold, Hpayload. rewrite Hpayload in Hs1.
      cbn [snd] in Hs1. subst s1. cbv zeta. proj.
      replace (next_reply (set_item_heap h w)) with (next_reply w) by reflexivity.
      by rewrite Hreply.
    + intros i b battrs lines line lattrs bid Hb Hbattrs Hlines Hline Hlattrs Hbid.
      rewrite (remove_item_unfold d w i b battrs lines line lattrs bid) by done.
      by rewrite Hreply.
Qed.

Lemma parse_errors_caught_transport_errors_raised_witness :
  ((get_basket (ordering, shop [Response 200 None []])).1 = Ok false ∧
   (add_item 1 0 (ordering, shop [Response 200 None []])).1 = Ok false ∧
   (remove_item 0 (ordering, shop [Response 200 None []])).1 = Ok () ∧
   stdout (remove_item 0 (ordering, shop [Response 200 None []])).2.2 =
     [Error_invalid_response] ∧
   (get_menu westminster (ordering, shop [Response 200 None []])).1 = Raise ValueError) ∧
  ((reset_session (ordering, shop [Transport_failure])).1 = Raise ConnectionError ∧
   (get_menu westminster (ordering, shop [Transport_failure])).1 = Raise ConnectionError ∧
   (add_item 1 0 (ordering, shop [Transport_failure])).1 = Raise ConnectionError).
Proof.
  split.
  - destruct (parse_errors_caught_transport_errors_raised ordering
                (shop [Response 200 None []])) as [H _].
    destruct (H 200%Z []) as (_ & Hbasket & Hadd & Hremove & _ & Hmenu); [reflexivity|].
    edestruct (Hremove 0%Z 2 one_line_basket) as [Hvalue Hprinted]; [reflexivity..|].
    split_and!.
    + exact Hbasket.
    + eapply Hadd. reflexivity.
    + exact Hvalue.
    + exact Hprinted.
    + eapply Hmenu; reflexivity.
  - destruct (parse_errors_caught_transport_errors_raised ordering
                (shop [Transport_failure])) as [_ H].
    destruct H as (Hreset & _ & _ & _ & _ & Hmenu & Hadd & _); [reflexivity|].
    split_and!.
    + exact Hreset.
    + eapply Hmenu; reflexivity.
    + eapply Hadd. reflexivity.
Defined.

(** C7 as stated fails: an unparseable body raises out of [search_stores],
    a transport failure raises out of [get_store_context], and so does a
    JSON body without the [sessionContext] field. *)
Lemma errors_reach_the_caller :
  (search_stores "SW1A 1AA" (searched, world_of [Response 200 None []])).1 =
    Raise ValueError ∧
  (get_store_context (searched, world_of [Transport_failure])).1 =
    Raise ConnectionError ∧
  (get_store_context (searched, world_of [Response 200 (Some (JDict [])) []])).1 =
    Raise KeyError.
Proof. repeat split; reflexivity. Qed.

(** ** The indexes [get_menu] assigns *)

Lemma foldM_inv {A C} (g : A → list C) (P : list C → Z → State → Prop)
    (f : Z → A → M Z) :
  (∀ done b x s b' s', P done b s → f b x s = (Ok b', s') → P (done ++ g x) b' s') →
  ∀ l done b s b' s',
    P done b s → foldM f b l s = (Ok b', s') → P (done ++ (x ← l; g x)) b' s'.
Proof.
  intros Hstep. induction l as [|x l IH]; intros done b s b' s' HP Hrun.
  - cbn in Hrun. injection Hrun as <- <-. by rewrite app_nil_r.
  - cbn [foldM] in Hrun. rewrite run_bind in Hrun.
    destruct (f b x s) as [[b1|e] s1] eqn:Hx; [|done].
    cbn [mbind list_bind]. rewrite app_assoc. eapply IH; [|done]. eauto.
Qed.

Lemma itemsInCategory_addItem c item m c' :
  itemsInCategory (Menu_addItem c item m) c' =
  if decide (c = c') then itemsInCategory m c' ++ [item] else itemsInCategory m c'.
Proof.
  unfold itemsInCategory, Menu_addItem. cbn [items].
  destruct (decide (c = c')) as [->|Hne].
  - by rewrite lookup_insert_eq.
  - by rewrite lookup_insert_ne.
Qed.

Lemma placed_snoc first done i p :
  placed first (done ++ [(i, p)]) =
  placed first done ++ [(category_of i, first + length done)].
Proof. unfold placed. rewrite imap_app. cbn. by rewrite Nat.add_0_r. Qed.

Lemma get_menu_product_inv first i done idx p s idx' s' :
  menu_inv first done idx s →
  get_menu_product i idx p s = (Ok idx', s') →
  menu_inv first (done ++ [(i, p)]) idx' s'.
Proof.
  intros [Hidx Hnext Hheap Hmenu] Hrun. unfold get_menu_product in Hrun.
  destruct p as [| | | | |pd]; try done. cbn [setitem_str] in Hrun.
  run_in Hrun.
  destruct (getitem_str i "Type") as [type|] eqn:Htype; [|done]. run_in Hrun.
  rewrite run_Item_new in Hrun. cbn [kwargs] in Hrun.
  destruct (dict_has "self" _); [done|]. run_in Hrun.
  destruct (py_hashable type) as [c|] eqn:Hc; [|done]. run_in Hrun.
  injection Hrun as <- <-. destruct s as [d w]. cbn [fst snd] in *.
  split; cbn [fst snd].
  - rewrite length_app. cbn. lia.
  - cbn. rewrite length_app. cbn. lia.
  - intros k i' p' Hk. cbn [with_new_item item_heap set_next_id set_item_heap].
    apply lookup_app_Some in Hk as [Hk|[Hlen Hk]].
    + destruct (Hheap k i' p' Hk) as (pd' & c' & -> & Hc' & Hat).
      exists pd', c'. split_and!; [done..|].
      apply lookup_lt_Some in Hk. rewrite lookup_insert_ne by lia. done.
    + destruct (k - length done) as [|?] eqn:Hkd; [|done].
      injection Hk as <- <-. exists pd, c. split_and!; [done| |].
      * unfold category_of. by rewrite Htype, Hc.
      * replace (first + k) with (next_id w) by lia. rewrite lookup_insert_eq.
        do 3 f_equal. lia.
  - intros c'. cbn [menu set_menu]. rewrite itemsInCategory_addItem, placed_snoc.
    rewrite filter_app, fmap_app, Hmenu. unfold category_of. rewrite Htype, Hc.
    rewrite Hnext.
    destruct (decide (c = c')) as [->|Hne].
    + rewrite (filter_cons_True (λ e, e.1 = Some c')) by done. done.
    + rewrite (filter_cons_False (λ e, e.1 = Some c')) by (cbn; congruence).
      cbn. by rewrite app_nil_r.
Qed.

Lemma get_menu_subcategory_inv first done idx i s idx' s' :
  menu_inv first done idx s →
  get_menu_subcategory idx i s = (Ok idx', s') →
  menu_inv first (done ++ subcategory_products i) idx' s'.
Proof.
  intros Hinv Hrun. unfold get_menu_subcategory in Hrun. run_in Hrun.
  unfold subcategory_products, elements.
  destruct (getitem_str i "Products") as [products|]; [|done]. run_in Hrun.
  destruct (py_iter products) as [l|]; [|done]. run_in Hrun.
  revert Hinv Hrun.
  apply (foldM_inv (λ p, [(i, p)]) (menu_inv first) (get_menu_product i)).
  intros. by eapply get_menu_product_inv.
Qed.

Lemma get_menu_group_inv first done idx item s idx' s' :
  menu_inv first done idx s →
  get_menu_group idx item s = (Ok idx', s') →
  menu_inv first (done ++ group_products item) idx' s'.
Proof.
  intros Hinv Hrun. unfold get_menu_group in Hrun. run_in Hrun.
  unfold group_products, elements.
  destruct (getitem_str item "Subcategories") as [subcategories|]; [|done].
  run_in Hrun.
  destruct (py_iter subcategories) as [l|]; [|done]. run_in Hrun.
  revert Hinv Hrun.
  apply (foldM_inv subcategory_products (menu_inv first) get_menu_subcategory).
  intros. by eapply get_menu_subcategory_inv.
Qed.

(** A successful [get_menu] ends in the invariant for the whole catalog. *)
Lemma get_menu_inv store d w m s' :
  get_menu store (d, w) = (Ok (Some m), s') →
  ∃ st catalog ck idx,
    (next_reply w).1 = Response st (Some catalog) ck ∧
    m = menu s'.1 ∧
    menu_inv (next_id w) (flatten_order catalog) idx s'.
Proof.
  rewrite get_menu_unfold. cbv zeta.
  destruct (negb (py_truthy (menu_version d))); [done|].
  destruct (getitem_str store "Id") as [store_id|]; [|done].
  destruct (next_reply w).1 as [|st [catalog|] ck]; [done| |done].
  destruct (py_iter catalog) as [groups|] eqn:Hgroups; [|done].
  destruct (foldM get_menu_group 0%Z groups _) as [[idx|e] s] eqn:Hrun; [|done].
  intros [= <- <-]. exists st, catalog, ck, idx. split_and!; [done..|].
  unfold flatten_order, elements. rewrite Hgroups.
  change (x ← groups; group_products x) with ([] ++ (x ← groups; group_products x)).
  revert Hrun.
  apply (foldM_inv group_products (menu_inv (next_id w)) get_menu_group).
  - intros. by eapply get_menu_group_inv.
  - by split.
Qed.

Lemma elem_of_placed first prods c item :
  item ∈ (filter (λ e, e.1 = Some c) (placed first prods)).*2 ↔
  ∃ k i p, item = first + k ∧ prods !! k = Some (i, p) ∧ category_of i = Some c.
Proof.
  rewrite list_elem_of_fmap. split.
  - intros ([c' item'] & -> & Hin). apply list_elem_of_filter in Hin as [Hc Hin].
    apply list_elem_of_lookup in Hin as [k Hk]. unfold placed in Hk.
    rewrite list_lookup_imap in Hk.
    destruct (prods !! k) as [[i p]|] eqn:E; [|done].
    injection Hk as <- <-. by exists k, i, p.
  - intros (k & i & p & -> & Hk & Hc). exists (Some c, first + k). split; [done|].
    apply list_elem_of_filter. split; [done|].
    apply list_elem_of_lookup. exists k. unfold placed.
    rewrite list_lookup_imap, Hk. cbn. by rewrite Hc.
Qed.

Lemma placed_sorted first prods (P : option hkey * nat → Prop)
    `{∀ e, Decision (P e)} :
  StronglySorted lt (filter P (placed first prods)).*2 ∧
  Forall (λ item, item < first + length prods) (filter P (placed first prods)).*2.
Proof.
  induction prods as [|[i p] prods [IHs IHb]] using rev_ind.
  - split; constructor.
  - rewrite placed_snoc, filter_app, fmap_app, length_app. cbn [length]. split.
    + apply StronglySorted_app. split_and!.
      * intros x1 x2 Hx1 Hx2. rewrite Forall_forall in IHb. apply IHb in Hx1.
        destruct (decide (P (category_of i, first + length prods))) as [HP|HP].
        -- rewrite filter_cons_True in Hx2 by done. cbn in Hx2.
           apply list_elem_of_singleton in Hx2 as ->. done.
        -- rewrite filter_cons_False in Hx2 by done. by apply elem_of_nil in Hx2.
      * done.
      * destruct (decide (P (category_of i, first + length prods))) as [HP|HP].
        -- rewrite filter_cons_True by done. cbn. repeat constructor.
        -- rewrite filter_cons_False by done. constructor.
    + apply Forall_app. split.
      * eapply Forall_impl; [done|]. cbn. lia.
      * destruct (decide (P (category_of i, first + length prods))) as [HP|HP].
        -- rewrite filter_cons_True by done. cbn. repeat constructor. lia.
        -- rewrite filter_cons_False by done. constructor.
Qed.

Lemma StronglySorted_lookup_lt (l : list nat) j1 j2 x1 x2 :
  StronglySorted lt l → l !! j1 = Some x1 → l !! j2 = Some x2 → j1 < j2 → x1 < x2.
Proof.
  intros Hs H1 H2 Hlt. rewrite <- (take_drop j2 l) in Hs.
  eapply StronglySorted_app_1_elem_of; [done| |].
  - apply list_elem_of_lookup. exists j1. by rewrite lookup_take_lt.
  - apply list_elem_of_lookup. exists 0. by rewrite lookup_drop, Nat.add_0_r.
Qed.

Lemma menu_inv_idx first done idx s k i p :
  menu_inv first done idx s → done !! k = Some (i, p) →
  Item_idx s.2 (first + k) = Some (JInt (Z.of_nat k)).
Proof.
  intros Hinv Hk. destruct (inv_heap _ _ _ _ Hinv k i p Hk) as (pd & c & _ & _ & Hat).
  unfold Item_idx. rewrite Hat. cbn. apply dict_get_set_eq.
Qed.

(** C2: after a successful [get_menu] the k-th product of the catalog in
    flatten order (category group, then subcategory, then product, in
    response order) is the Item created k-th, it carries [idx = k] next to
    the product's own fields, and it sits in the menu under the [Type] of
    its subcategory, after the earlier products of that category. So every
    item of the menu has an [idx], counted from 0; two items of the menu with
    the same [idx] are one item in one category; and along each category the
    [idx] strictly increases. *)
Theorem get_menu_indexes store d w m d' w' :
  get_menu store (d, w) = (Ok (Some m), (d', w')) →
  ∃ st catalog ck,
    (next_reply w).1 = Response st (Some catalog) ck ∧ m = menu d' ∧
    let prods := flatten_order catalog in
    let first := next_id w in
    (∀ k i p, prods !! k = Some (i, p) →
       ∃ pd c, p = JDict pd ∧ category_of i = Some c ∧
         first + k ∈ itemsInCategory m c ∧
         item_heap w' !! (first + k) = Some (dict_set "idx" (JInt (Z.of_nat k)) pd)) ∧
    (∀ c, itemsInCategory m c =
          (filter (λ e, e.1 = Some c) (placed first prods)).*2) ∧
    (∀ c item, item ∈ itemsInCategory m c →
       ∃ k, item = first + k ∧ k < length prods ∧
            Item_idx w' item = Some (JInt (Z.of_nat k))) ∧
    (∀ c1 c2 item1 item2 n,
       item1 ∈ itemsInCategory m c1 → item2 ∈ itemsInCategory m c2 →
       Item_idx w' item1 = Some n → Item_idx w' item2 = Some n →
       item1 = item2 ∧ c1 = c2) ∧
    (∀ c j1 j2 item1 item2,
       itemsInCategory m c !! j1 = Some item1 →
       itemsInCategory m c !! j2 = Some item2 → j1 < j2 →
       ∃ n1 n2, Item_idx w' item1 = Some (JInt n1) ∧
                Item_idx w' item2 = Some (JInt n2) ∧ (n1 < n2)%Z).
Proof.
  intros Hrun.
  destruct (get_menu_inv _ _ _ _ _ Hrun) as (st & catalog & ck & idx & Hreply & -> & Hinv).
  exists st, catalog, ck. split; [done|]. split; [done|]. cbv zeta.
  cbn [fst snd] in Hinv.
  pose proof (inv_heap _ _ _ _ Hinv) as Hheap.
  pose proof (inv_menu _ _ _ _ Hinv) as Hmenu. cbn [fst snd] in Hheap, Hmenu.
  assert (∀ c item, item ∈ itemsInCategory (menu d') c →
            ∃ k i, item = next_id w + k ∧ k < length (flatten_order catalog) ∧
                 category_of i = Some c ∧
                 (flatten_order catalog).*1 !! k = Some i ∧
                 Item_idx w' item = Some (JInt (Z.of_nat k))) as Hin.
  { intros c item Hitem. rewrite Hmenu in Hitem.
    apply elem_of_placed in Hitem as (k & i & p & -> & Hk & Hc).
    exists k, i. split_and!; [done| |done| |].
    - by apply lookup_lt_Some in Hk.
    - by rewrite list_lookup_fmap, Hk.
    - apply (menu_inv_idx _ _ _ _ _ _ _ Hinv Hk). }
  split_and!.
  - intros k i p Hk. destruct (Hheap k i p Hk) as (pd & c & -> & Hc & Hat).
    exists pd, c. split_and!; [done..| |done].
    rewrite Hmenu. apply elem_of_placed. by exists k, i, (JDict pd).
  - done.
  - intros c item Hitem. destruct (Hin c item Hitem) as (k & i & ? & ? & _ & _ & ?).
    by exists k.
  - intros c1 c2 item1 item2 n H1 H2 Hn1 Hn2.
    destruct (Hin c1 item1 H1) as (k1 & i1 & -> & _ & Hc1 & Hi1 & Hidx1).
    destruct (Hin c2 item2 H2) as (k2 & i2 & -> & _ & Hc2 & Hi2 & Hidx2).
    assert (k1 = k2) as -> by (rewrite Hn1 in Hidx1; rewrite Hn2 in Hidx2;
                               injection Hidx1 as ->; injection Hidx2; lia).
    split; [done|]. rewrite Hi1 in Hi2. injection Hi2 as ->. congruence.
  - intros c j1 j2 item1 item2 Hj1 Hj2 Hlt.
    assert (item1 < item2) as Hitems.
    { rewrite Hmenu in Hj1, Hj2.
      destruct (placed_sorted (next_id w) (flatten_order catalog)
                  (λ e, e.1 = Some c)) as [Hsorted _].
      eapply StronglySorted_lookup_lt; done. }
    destruct (Hin c item1) as (k1 & i1 & -> & _ & _ & _ & Hidx1);
      [by eapply list_elem_of_lookup_2|].
    destruct (Hin c item2) as (k2 & i2 & -> & _ & _ & _ & Hidx2);
      [by eapply list_elem_of_lookup_2|].
    exists (Z.of_nat k1), (Z.of_nat k2). split_and!; [done..|lia].
Qed.

Lemma get_menu_indexes_witness :
  let out := get_menu westminster
               (ordering, shop [Response 200 (Some sample_catalog) []]) in
  let m := menu out.2.1 in
  let w' := out.2.2 in
  ∃ st catalog ck,
    (next_reply (shop [Response 200 (Some sample_catalog) []])).1 =
      Response st (Some catalog) ck ∧ m = menu out.2.1 ∧
    let prods := flatten_order catalog in
    let first := 3 in
    (∀ k i p, prods !! k = Some (i, p) →
       ∃ pd c, p = JDict pd ∧ category_of i = Some c ∧
         first + k ∈ itemsInCategory m c ∧
         item_heap w' !! (first + k) = Some (dict_set "idx" (JInt (Z.of_nat k)) pd)) ∧
    (∀ c, itemsInCategory m c =
          (filter (λ e, e.1 = Some c) (placed first prods)).*2) ∧
    (∀ c item, item ∈ itemsInCategory m c →
       ∃ k, item = first + k ∧ k < length prods ∧
            Item_idx w' item = Some (JInt (Z.of_nat k))) ∧
    (∀ c1 c2 item1 item2 n,
       item1 ∈ itemsInCategory m c1 → item2 ∈ itemsInCategory m c2 →
       Item_idx w' item1 = Some n → Item_idx w' item2 = Some n →
       item1 = item2 ∧ c1 = c2) ∧
    (∀ c j1 j2 item1 item2,
       itemsInCategory m c !! j1 = Some item1 →
       itemsInCategory m c !! j2 = Some item2 → j1 < j2 →
       ∃ n1 n2, Item_idx w' item1 = Some (JInt n1) ∧
                Item_idx w' item2 = Some (JInt n2) ∧ (n1 < n2)%Z).
Proof.
  intros out m w'.
  apply (get_menu_indexes westminster ordering
           (shop [Response 200 (Some sample_catalog) []]) m out.2.1 w').
  vm_compute. reflexivity.
Defined.

Example get_menu_sample :
  let out := get_menu westminster
               (ordering, shop [Response 200 (Some sample_catalog) []]) in
  itemsInCategory (menu out.2.1) (HStr "Pizza") = [3; 4; 6] ∧
  itemsInCategory (menu out.2.1) (HStr "Side") = [5] ∧
  Item_idx out.2.2 <$> [3; 4; 5; 6] =
    [Some (JInt 0); Some (JInt 1); Some (JInt 2); Some (JInt 3)].
Proof. vm_compute. done. Qed.

(** ** The menu [get_menu] leaves behind *)

Lemma foldM_preserves {A B} (P : State → Prop) (f : B → A → M B) :
  (∀ b x s, P s → P (f b x s).2) →
  ∀ l b s, P s → P (foldM f b l s).2.
Proof.
  intros Hstep. induction l as [|x l IH]; intros b s HP; [done|].
  cbn [foldM]. rewrite run_bind. specialize (Hstep b x s HP).
  destruct (f b x s) as [[b1|e] s1]; [|done]. by apply IH.
Qed.

Lemma get_menu_product_fresh first i idx p s :
  menu_fresh first s → menu_fresh first (get_menu_product i idx p s).2.
Proof.
  intros Hfresh. unfold get_menu_product. run.
  destruct (setitem_str p "idx" (JInt idx)) as [p'|]; run; [|done].
  destruct (getitem_str i "Type") as [type|]; run; [|done].
  rewrite run_Item_new.
  destruct (kwargs p') as [attrs|]; run; [|done].
  destruct Hfresh as [Hnext Hitems Hempty]. destruct s as [d w]. cbn [fst snd] in *.
  assert (menu_fresh first (d, with_new_item attrs w)) as Hnew.
  { split; cbn [fst snd]; cbn.
    - lia.
    - intros c item Hitem. apply Hitems in Hitem. lia.
    - lia. }
  destruct (py_hashable type) as [c|]; run; [|done].
  split; cbn [fst snd]; cbn.
  - lia.
  - intros c' item. rewrite itemsInCategory_addItem.
    destruct (decide (c = c')) as [->|_].
    + intros [Hitem| ->%list_elem_of_singleton]%elem_of_app; [|lia].
      apply Hitems in Hitem. lia.
    + intros Hitem. apply Hitems in Hitem. lia.
  - lia.
Qed.

Lemma get_menu_subcategory_fresh first idx i s :
  menu_fresh first s → menu_fresh first (get_menu_subcategory idx i s).2.
Proof.
  intros Hfresh. unfold get_menu_subcategory. run.
  destruct (getitem_str i "Products") as [products|]; run; [|done].
  destruct (py_iter products) as [l|]; run; [|done].
  apply foldM_preserves; [|done]. intros. by apply get_menu_product_fresh.
Qed.

Lemma get_menu_group_fresh first idx item s :
  menu_fresh first s → menu_fresh first (get_menu_group idx item s).2.
Proof.
  intros Hfresh. unfold get_menu_group. run.
  destruct (getitem_str item "Subcategories") as [subcategories|]; run; [|done].
  destruct (py_iter subcategories) as [l|]; run; [|done].
  apply foldM_preserves; [|done]. intros. by apply get_menu_subcategory_fresh.
Qed.

Lemma get_menu_fresh store d w :
  menu_fresh (next_id w) (get_menu store (d, w)).2.
Proof.
  assert (∀ d1 (w1 : World), next_id w1 = next_id w → menu d1 = Menu_new →
            menu_fresh (next_id w) (d1, w1)) as Hstart.
  { intros d1 w1 Hid Hmenu. split; cbn [fst snd].
    - lia.
    - intros c item. rewrite Hmenu. unfold itemsInCategory, Menu_new. cbn.
      rewrite lookup_empty. cbn. by intros ?%elem_of_nil.
    - done. }
  rewrite get_menu_unfold. cbv zeta.
  destruct (negb (py_truthy (menu_version d))); [by apply Hstart|].
  destruct (getitem_str store "Id") as [store_id|]; [|by apply Hstart].
  destruct (next_reply w).1 as [|st [catalog|] ck]; [by apply Hstart| |by apply Hstart].
  destruct (py_iter catalog) as [groups|]; [|by apply Hstart].
  pose proof (foldM_preserves (menu_fresh (next_id w)) get_menu_group
                (λ b x s, get_menu_group_fresh (next_id w) b x s) groups 0%Z
                (set_sess (sess d ++ ck) (set_menu Menu_new d),
                 sent (catalog_request (menu_version d) store_id (sess d)) w)) as H.
  destruct (foldM get_menu_group 0%Z groups _) as [[idx|e] s]; apply H; by apply Hstart.
Qed.

(** C10: every call of [get_menu] starts from a fresh empty menu. Its outcome
    does not depend on the menu the client held; whether it returns a menu,
    returns [None] or raises, every item of the menu it leaves was created
    during the call, and that menu is the empty one when the call created no
    object, as on the path without a menu version, where nothing is sent. *)
Theorem get_menu_discards_menu store d w :
  let out := get_menu store (d, w) in
  (∀ m0, get_menu store (set_menu m0 d, w) = out) ∧
  (∀ c item, item ∈ itemsInCategory (menu out.2.1) c →
     (next_id w ≤ item < next_id out.2.2)%nat) ∧
  (next_id out.2.2 = next_id w → menu out.2.1 = Menu_new) ∧
  (py_truthy (menu_version d) = false →
     out = (Ok None, (set_menu Menu_new d, w))).
Proof.
  intros out. subst out. destruct (get_menu_fresh store d w) as [_ Hitems Hempty].
  split_and!; [|done..|].
  - intros m0. by rewrite !get_menu_unfold.
  - intros Hversion. by rewrite get_menu_unfold, Hversion.
Qed.

Lemma get_menu_discards_menu_witness :
  get_menu westminster (set_menu_version JNull ordering, shop []) =
    (Ok None, (set_menu Menu_new (set_menu_version JNull ordering), shop [])).
Proof.
  destruct (get_menu_discards_menu westminster (set_menu_version JNull ordering)
              (shop [])) as (_ & _ & _ & H).
  apply H. reflexivity.
Defined.

(** ** Who sets the menu version *)

Lemma get_menu_keeps_version store s :
  menu_version (get_menu store s).2.1 = menu_version s.1.
Proof.
  destruct s as [d w].
  assert (∀ idx item s, menu_version s.1 = menu_version d →
            menu_version (get_menu_group idx item s).2.1 = menu_version d) as Hgroup.
  { intros idx item s Hs. unfold get_menu_group. case_all; try done.
    apply (foldM_preserves (λ s, menu_version s.1 = menu_version d)); [|done].
    clear. intros idx i s Hs. unfold get_menu_subcategory. case_all; try done.
    apply (foldM_preserves (λ s, menu_version s.1 = menu_version d)); [|done].
    clear. intros idx p s Hs. unfold get_menu_product, Item_new. case_all; done. }
  rewrite get_menu_unfold. cbv zeta. case_all; try done.
  - match goal with
    | H : foldM get_menu_group 0%Z ?l ?s0 = _ |- _ =>
        pose proof (foldM_preserves (λ s, menu_version s.1 = menu_version d)
                      get_menu_group Hgroup l 0%Z s0 eq_refl) as Hfold;
        by rewrite H in Hfold
    end.
  - match goal with
    | H : foldM get_menu_group 0%Z ?l ?s0 = _ |- _ =>
        pose proof (foldM_preserves (λ s, menu_version s.1 = menu_version d)
                      get_menu_group Hgroup l 0%Z s0 eq_refl) as Hfold;
        by rewrite H in Hfold
    end.
Qed.

(** X25: A new client has no menu version, and no operation but a
    [get_store_context] that returns [True] changes it. *)
Lemma menu_version_set_by_store_context :
  (∀ w, menu_version (Dominos_init w).2.1 = JNull) ∧
  ∀ s,
    menu_version (reset_session s).2.1 = menu_version s.1 ∧
    (∀ term, menu_version (search_stores term s).2.1 = menu_version s.1) ∧
    (∀ idx, menu_version (select_store idx s).2.1 = menu_version s.1) ∧
    (∀ store postcode, menu_version (get_cookie store postcode s).2.1 = menu_version s.1) ∧
    ((get_store_context s).1 ≠ Ok true →
       menu_version (get_store_context s).2.1 = menu_version s.1) ∧
    menu_version (get_basket s).2.1 = menu_version s.1 ∧
    (∀ store, menu_version (get_menu store s).2.1 = menu_version s.1) ∧
    (∀ item size_idx, menu_version (add_item item size_idx s).2.1 = menu_version s.1) ∧
    (∀ i, menu_version (remove_item i s).2.1 = menu_version s.1).
Proof.
  split.
  - intros w. unfold Dominos_init, reset_session, sess_get, send. by case_all.
  - intros [d w]. split_and!.
    + unfold reset_session, sess_get, send. by case_all.
    + intros term. rewrite search_stores_unfold. cbv zeta. by case_all.
    + intros idx. unfold select_store. by case_all.
    + intros store postcode. rewrite get_cookie_unfold. by case_all.
    + rewrite get_store_context_unfold. cbv zeta. by case_all.
    + rewrite get_basket_unfold. cbv zeta.
      destruct (next_reply w).1 as [|st [j|] ck]; cbn [mbind option_bind]; try done.
      by destruct (kwargs j).
    + intros store. apply get_menu_keeps_version.
    + intros item size_idx. rewrite add_item_unfold.
      destruct (add_item_payload_frame item size_idx d w) as [h Hs1].
      destruct (add_item_payload item size_idx (d, w)) as [[[url [payload|]]|e] s1];
        cbn [snd] in Hs1; subst s1; cbv zeta; by case_all.
    + intros i.
      unfold remove_item, self_basket, Basket_getattr, Item_new, Item_getattr,
        sess_get, send, try_except, Basket_new, print.
      by case_all.
Qed.

(** ** Two sessions *)

(** A search that finds two stores, then [select_store(1)] and
    [select_store(2)]. *)
Example search_then_select :
  let s := (search_stores "SW1A 1AA"
              (mkDominos [] [] JNull Menu_new None,
               world_of [Response 200 (Some (JList [westminster; pimlico])) []])).2 in
  stores s.1 = [westminster; pimlico] ∧
  (select_store 1 s).1 = Ok pimlico ∧
  (select_store 2 s).1 = Raise IndexError.
Proof. by vm_compute. Qed.

(** The menu version of the store context is the one the catalog is asked
    for. *)
Example store_context_then_menu :
  let context :=
    JDict [("sessionContext", JDict [("menuVersion", JStr "635603832000000000")])] in
  let s := (get_store_context
              (searched,
               world_of [Response 200 (Some context) []; Response 200 (Some (JList [])) []])).2 in
  menu_version s.1 = JStr "635603832000000000" ∧
  log (get_menu westminster s).2.2 =
    [store_context_request 1425168000 (sess searched);
     catalog_request (JStr "635603832000000000") (JInt 28162) (sess searched)].
Proof. by vm_compute. Qed.

(** * Further properties of the operations *)

(** ** What the loops of [get_menu] can change *)

(** A property of the state that creating an Item and adding to the menu
    keep is kept by the loops of [get_menu], however they end. *)
Lemma get_menu_group_preserves (P : State → Prop) :
  (∀ d w m, P (d, w) → P (set_menu m d, w)) →
  (∀ d w attrs, P (d, w) → P (d, with_new_item attrs w)) →
  ∀ idx item s, P s → P (get_menu_group idx item s).2.
Proof.
  intros Hmenu Hitem idx item s Hs. unfold get_menu_group. case_all; try done.
  apply foldM_preserves; [|done].
  clear -Hmenu Hitem. intros idx i s Hs. unfold get_menu_subcategory.
  case_all; try done. apply foldM_preserves; [|done].
  clear -Hmenu Hitem. intros idx p [d w] Hs. unfold get_menu_product.
  run. destruct (setitem_str p "idx" (JInt idx)) as [p'|]; run; [|done].
  destruct (getitem_str i "Type") as [type|]; run; [|done].
  rewrite run_Item_new. destruct (kwargs p') as [attrs|]; run; [|done].
  destruct (py_hashable type) as [c|]; run; auto.
Qed.

Lemma get_menu_loops_preserve (P : State → Prop) groups s :
  (∀ d w m, P (d, w) → P (set_menu m d, w)) →
  (∀ d w attrs, P (d, w) → P (d, with_new_item attrs w)) →
  P s → P (foldM get_menu_group 0%Z groups s).2.
Proof.
  intros Hmenu Hitem Hs. apply foldM_preserves; [|done].
  intros. by apply get_menu_group_preserves.
Qed.

(** [get_menu] in terms of the state its loops reach. *)
Lemma get_menu_state store d w :
  (get_menu store (d, w)).2 =
  let d0 := set_menu Menu_new d in
  if negb (py_truthy (menu_version d)) then (d0, w)
  else
    match getitem_str store "Id" with
    | Raise e => (d0, w)
    | Ok store_id =>
        let w1 := sent (catalog_request (menu_version d) store_id (sess d)) w in
        match (next_reply w).1 with
        | Transport_failure => (d0, w1)
        | Response st body ck =>
            let d1 := set_sess (sess d ++ ck) d0 in
            match body with
            | None => (d1, w1)
            | Some catalog =>
                match py_iter catalog with
                | Raise e => (d1, w1)
                | Ok groups => (foldM get_menu_group 0%Z groups (d1, w1)).2
                end
            end
        end
    end.
Proof.
  rewrite get_menu_unfold. cbv zeta.
  destruct (negb (py_truthy (menu_version d))); [done|].
  destruct (getitem_str store "Id"); [|done].
  destruct (next_reply w).1 as [|st [catalog|] ck]; try done.
  destruct (py_iter catalog) as [groups|]; [|done].
  by destruct (foldM get_menu_group 0%Z groups _) as [[?|?] ?].
Qed.

(** ** One request at most *)

Lemma sends_none w w' : log w' = log w → sends_at_most_one w w'.
Proof. intros H. exists []. rewrite H, app_nil_r. split; [done|cbn; lia]. Qed.

Lemma sends_one w w' rq : log w' = log w ++ [rq] → sends_at_most_one w w'.
Proof. intros H. exists [rq]. split; [done|cbn; lia]. Qed.

Ltac solve_sends :=
  first [ by apply sends_none | by eapply sends_one ].

Lemma get_menu_loops_log groups s :
  log (foldM get_menu_group 0%Z groups s).2.2 = log s.2.
Proof.
  by apply (get_menu_loops_preserve (λ s', log s'.2 = log s.2)).
Qed.

(** X1: No operation calls the session ([self.sess.get], [self.sess.post])
    more than once, however that call and the operation end: the client has
    no retry of its own. [select_store] calls it not at all. *)
Theorem at_most_one_request d w :
  sends_at_most_one w (reset_session (d, w)).2.2 ∧
  (∀ term, sends_at_most_one w (search_stores term (d, w)).2.2) ∧
  (∀ idx, log (select_store idx (d, w)).2.2 = log w) ∧
  (∀ store postcode, sends_at_most_one w (get_cookie store postcode (d, w)).2.2) ∧
  sends_at_most_one w (get_store_context (d, w)).2.2 ∧
  sends_at_most_one w (get_basket (d, w)).2.2 ∧
  (∀ store, sends_at_most_one w (get_menu store (d, w)).2.2) ∧
  (∀ item size_idx, sends_at_most_one w (add_item item size_idx (d, w)).2.2) ∧
  (∀ i, sends_at_most_one w (remove_item i (d, w)).2.2).
Proof.
  split_and!.
  - rewrite reset_session_unfold. cbv zeta. case_all; solve_sends.
  - intros term. rewrite search_stores_unfold. cbv zeta. case_all; solve_sends.
  - intros idx. unfold select_store. by case_all.
  - intros store postcode. rewrite get_cookie_unfold. case_all; solve_sends.
  - rewrite get_store_context_unfold. cbv zeta. case_all; solve_sends.
  - rewrite get_basket_unfold. cbv zeta.
    destruct (next_reply w).1 as [|st [j|] ck]; cbn [mbind option_bind];
      try solve_sends.
    destruct (kwargs j); solve_sends.
  - intros store. rewrite get_menu_state. cbv zeta. case_all; try solve_sends.
    eapply sends_one. by rewrite get_menu_loops_log.
  - intros item size_idx. rewrite add_item_unfold.
    destruct (add_item_payload_frame item size_idx d w) as [h Hs1].
    destruct (add_item_payload item size_idx (d, w)) as [[[url [payload|]]|e] s1];
      cbn [snd] in Hs1; subst s1; cbv zeta; case_all; solve_sends.
  - intros i.
    unfold remove_item, self_basket, Basket_getattr, Item_new, Item_getattr,
      sess_get, send, try_except, Basket_new, print.
    case_all; solve_sends.
Qed.

(** ** Objects that stay as they are *)

Ltac solve_kept :=
  split;
  [ unfold with_new_item, with_new_basket, printed; proj; lia
  | intros ? ?; unfold with_new_item, with_new_basket, printed; proj;
    rewrite ?lookup_insert_ne by lia; done ].



Lemma add_item_payload_heap item size_idx d w :
  ∃ f, (add_item_payload item size_idx (d, w)).2 =
       (d, set_item_heap (alter f item (item_heap w)) w).
Proof.
  assert ((d, w) = (d, set_item_heap (alter id item (item_heap w)) w)) as Hid.
  { rewrite alter_id by done. by rewrite world_same_item_heap. }
  unfold add_item_payload, Item_getattr. case_all;
    try (exists id; exact Hid);
    try (eexists; proj; reflexivity).
Qed.

Lemma get_menu_loops_items w groups s :
  items_kept w s.2 → items_kept w (foldM get_menu_group 0%Z groups s).2.2.
Proof.
  apply (get_menu_loops_preserve (λ s', items_kept w s'.2)); [done|].
  intros d' w' attrs [Hnext Hkept]. cbn [snd] in *.
  split; unfold with_new_item; proj; [lia|].
  intros i Hi. rewrite lookup_insert_ne by lia. by apply Hkept.
Qed.

(** X3: An Item, once created, is modified by no operation but [add_item], and
    [add_item] leaves every Item but the one it was given as it is. *)
Theorem items_changed_only_by_add_item d w :
  items_kept w (reset_session (d, w)).2.2 ∧
  (∀ term, items_kept w (search_stores term (d, w)).2.2) ∧
  (∀ idx, items_kept w (select_store idx (d, w)).2.2) ∧
  (∀ store postcode, items_kept w (get_cookie store postcode (d, w)).2.2) ∧
  items_kept w (get_store_context (d, w)).2.2 ∧
  items_kept w (get_basket (d, w)).2.2 ∧
  (∀ store, items_kept w (get_menu store (d, w)).2.2) ∧
  (∀ i, items_kept w (remove_item i (d, w)).2.2) ∧
  (∀ item size_idx i, i ≠ item →
     item_heap (add_item item size_idx (d, w)).2.2 !! i = item_heap w !! i).
Proof.
  split_and!.
  - rewrite reset_session_unfold. cbv zeta. case_all; solve_kept.
  - intros term. rewrite search_stores_unfold. cbv zeta. case_all; solve_kept.
  - intros idx. unfold select_store. case_all; solve_kept.
  - intros store postcode. rewrite get_cookie_unfold. case_all; solve_kept.
  - rewrite get_store_context_unfold. cbv zeta. case_all; solve_kept.
  - rewrite get_basket_unfold. cbv zeta.
    destruct (next_reply w).1 as [|st [j|] ck]; cbn [mbind option_bind];
      try solve_kept.
    destruct (kwargs j); solve_kept.
  - intros store. rewrite get_menu_state. cbv zeta. case_all; try solve_kept.
    apply get_menu_loops_items. solve_kept.
  - intros i.
    unfold remove_item, self_basket, Basket_getattr, Item_new, Item_getattr,
      sess_get, send, try_except, Basket_new, print.
    case_all; solve_kept.
  - intros item size_idx i Hne. rewrite add_item_unfold.
    destruct (add_item_payload_heap item size_idx d w) as [f Hs1].
    destruct (add_item_payload item size_idx (d, w)) as [[[url [payload|]]|e] s1];
      cbn [snd] in Hs1; subst s1; cbv zeta; case_all;
      unfold with_new_basket; proj; by rewrite lookup_alter_ne.
Qed.

Lemma items_changed_only_by_add_item_witness :
  item_heap (add_item 0 0 (ordering, shop [Response 200 (Some (JDict one_line_basket)) []])).2.2
    !! 1 = Some garlic_bread.
Proof.
  destruct (items_changed_only_by_add_item ordering
              (shop [Response 200 (Some (JDict one_line_basket)) []]))
    as (_ & _ & _ & _ & _ & _ & _ & _ & H).
  rewrite (H 0 0%Z 1) by done. reflexivity.
Defined.

(** ** [search_stores] and [select_store] together *)

(** X4: [search_stores] starts from an empty list: what it returns is what the
    client holds afterwards, and when it raises (transport, body that is not
    JSON or cannot be iterated) the client holds no store, not the stores of
    the search before. The status code is not looked at: a JSON array is
    returned as it is. *)
Theorem search_stores_replaces_stores term d w :
  let out := search_stores term (d, w) in
  (∀ l, out.1 = Ok l → stores out.2.1 = l) ∧
  (∀ e, out.1 = Raise e → stores out.2.1 = []) ∧
  (∀ st l ck, (next_reply w).1 = Response st (Some (JList l)) ck → out.1 = Ok l).
Proof.
  intros out. subst out. rewrite search_stores_unfold. cbv zeta. split_and!.
  - intros l. case_all; try done. by intros [= ->].
  - intros e. by case_all.
  - by intros st l ck ->.
Qed.

Lemma search_stores_replaces_stores_witness :
  (search_stores "Nowhere" (searched, world_of [Response 404 (Some (JList [])) []])).1 = Ok [] ∧
  stores (search_stores "Nowhere"
            (searched, world_of [Response 404 (Some (JList [])) []])).2.1 = [].
Proof.
  destruct (search_stores_replaces_stores "Nowhere" searched
              (world_of [Response 404 (Some (JList [])) []])) as (Hcache & _ & Hok).
  assert ((search_stores "Nowhere"
             (searched, world_of [Response 404 (Some (JList [])) []])).1 = Ok []) as H
    by (by apply (Hok 404%Z [] [])).
  split; [exact H|]. by apply Hcache.
Defined.

(** X5: Every store a search returned can be selected by its position in the
    returned list. *)
Theorem select_store_after_search term s l (i : nat) x :
  (search_stores term s).1 = Ok l →
  l !! i = Some x →
  select_store (Z.of_nat i) (search_stores term s).2 =
    (Ok x, (search_stores term s).2).
Proof.
  destruct s as [d w]. rewrite search_stores_unfold. cbv zeta.
  case_all; try done; intros [= ->] Hx; unfold select_store; run;
    by rewrite (list_getitem_nonneg _ _ x) by (lia || by rewrite Nat2Z.id).
Qed.

Lemma select_store_after_search_witness :
  select_store 1
    (search_stores "SW1A 1AA"
       (searched, world_of [Response 200 (Some (JList [westminster; pimlico])) []])).2 =
  (Ok pimlico,
   (search_stores "SW1A 1AA"
      (searched, world_of [Response 200 (Some (JList [westminster; pimlico])) []])).2).
Proof.
  apply (select_store_after_search "SW1A 1AA"
           (searched, world_of [Response 200 (Some (JList [westminster; pimlico])) []])
           [westminster; pimlico] 1 pimlico); reflexivity.
Defined.

(** ** [get_cookie] *)

(** X6: [get_cookie] reads [store['Id']] before anything is sent: a store
    without it raises and the state is untouched. Otherwise one request goes
    out with the fulfilment method ['1'], the store id and the postcode, and
    any response, whatever its status and body, makes [get_cookie] return:
    only its cookies are kept. *)
Theorem get_cookie_outcome store postcode d w :
  (∀ e, getitem_str store "Id" = Raise e →
     get_cookie store postcode (d, w) = (Raise e, (d, w))) ∧
  (∀ store_id st body ck,
     getitem_str store "Id" = Ok store_id →
     (next_reply w).1 = Response st body ck →
     get_cookie store postcode (d, w) =
       (Ok (), (set_sess (sess d ++ ck) d,
                sent (initialize_request store_id postcode (sess d)) w))).
Proof.
  rewrite get_cookie_unfold. split.
  - by intros e ->.
  - by intros store_id st body ck -> ->.
Qed.

Lemma get_cookie_outcome_witness :
  get_cookie (JDict [("Name", JStr "Soho")]) "W1D 3QU" (searched, world_of []) =
    (Raise KeyError, (searched, world_of [])) ∧
  get_cookie pimlico "SW1V 2AA" (searched, world_of [Response 503 None ["basket=1"]]) =
    (Ok (), (set_sess ["ASP.NET_SessionId=k3"; "basket=1"] searched,
             sent (initialize_request (JInt 28172) "SW1V 2AA" (sess searched))
               (world_of [Response 503 None ["basket=1"]]))).
Proof.
  split.
  - destruct (get_cookie_outcome (JDict [("Name", JStr "Soho")]) "W1D 3QU"
                searched (world_of [])) as [H _].
    by apply H.
  - destruct (get_cookie_outcome pimlico "SW1V 2AA" searched
                (world_of [Response 503 None ["basket=1"]])) as [_ H].
    by apply (H (JInt 28172) 503%Z None ["basket=1"]).
Defined.

(** ** [get_store_context] and the menu version *)

Lemma get_store_context_stores_version_aux d w st context ck session_context version :
  (next_reply w).1 = Response st (Some context) ck →
  getitem_str context "sessionContext" = Ok session_context →
  getitem_str session_context "menuVersion" = Ok version →
  get_store_context (d, w) =
    (Ok true, (set_menu_version version (set_sess (sess d ++ ck) d),
               sent (store_context_request (clock w) (sess d)) w)).
Proof. intros Hreply Hsc Hv. by rewrite get_store_context_unfold, Hreply, Hsc, Hv. Qed.

(** X7: A JSON response with [sessionContext.menuVersion], whatever its status
    code, makes [get_store_context] return [True] and store that version. *)
Theorem get_store_context_stores_version d w st context ck session_context version :
  (next_reply w).1 = Response st (Some context) ck →
  getitem_str context "sessionContext" = Ok session_context →
  getitem_str session_context "menuVersion" = Ok version →
  get_store_context (d, w) =
    (Ok true, (set_menu_version version (set_sess (sess d ++ ck) d),
               sent (store_context_request (clock w) (sess d)) w)).
Proof. apply get_store_context_stores_version_aux. Qed.

(** X8: After a store context with a menu version that counts as true, the
    call [get_menu] makes is the catalog call for that version and the id of
    the store, right after the store-context call. *)
Theorem get_menu_after_store_context store d w st context ck session_context version store_id :
  (next_reply w).1 = Response st (Some context) ck →
  getitem_str context "sessionContext" = Ok session_context →
  getitem_str session_context "menuVersion" = Ok version →
  py_truthy version = true →
  getitem_str store "Id" = Ok store_id →
  ∃ jar,
    log (get_menu store (get_store_context (d, w)).2).2.2 =
      log w ++ [store_context_request (clock w) (sess d);
                catalog_request version store_id jar].
Proof.
  intros Hreply Hsc Hv Htruthy Hid. exists (sess d ++ ck).
  rewrite (get_store_context_stores_version_aux d w st context ck session_context version)
    by done.
  cbn [snd]. rewrite get_menu_state. cbv zeta. proj. rewrite Htruthy, Hid. cbn [negb].
  case_all; rewrite ?get_menu_loops_log; proj; by rewrite <- app_assoc.
Qed.

Lemma get_store_context_stores_version_witness :
  get_store_context (searched, world_of [Response 500 (Some sample_context) []]) =
    (Ok true,
     (set_menu_version (JStr "635603832000000000") (set_sess (sess searched ++ []) searched),
      sent (store_context_request 1425168000 (sess searched))
        (world_of [Response 500 (Some sample_context) []]))).
Proof.
  apply (get_store_context_stores_version searched
           (world_of [Response 500 (Some sample_context) []]) 500 sample_context []
           (JDict [("menuVersion", JStr "635603832000000000"); ("storeId", JInt 28162)])
           (JStr "635603832000000000")); reflexivity.
Defined.

Lemma get_menu_after_store_context_witness :
  ∃ jar,
    log (get_menu westminster
           (get_store_context
              (searched, world_of [Response 200 (Some sample_context) ["v=1"]])).2).2.2 =
      [store_context_request 1425168000 (sess searched);
       catalog_request (JStr "635603832000000000") (JInt 28162) jar].
Proof.
  apply (get_menu_after_store_context westminster searched
           (world_of [Response 200 (Some sample_context) ["v=1"]]) 200 sample_context ["v=1"]
           (JDict [("menuVersion", JStr "635603832000000000"); ("storeId", JInt 28162)])
           (JStr "635603832000000000") (JInt 28162)); reflexivity.
Defined.

(** X9: [get_store_context] can return [True] and leave [get_menu] unavailable:
    a version that Python counts as false (an empty string, 0, null) is
    stored like any other, and [get_menu] then returns [None] without sending
    anything. *)
Theorem get_menu_after_false_version store d w st context ck session_context version :
  (next_reply w).1 = Response st (Some context) ck →
  getitem_str context "sessionContext" = Ok session_context →
  getitem_str session_context "menuVersion" = Ok version →
  py_truthy version = false →
  (get_store_context (d, w)).1 = Ok true ∧
  (get_menu store (get_store_context (d, w)).2).1 = Ok None ∧
  log (get_menu store (get_store_context (d, w)).2).2.2 =
    log w ++ [store_context_request (clock w) (sess d)].
Proof.
  intros Hreply Hsc Hv Hfalse.
  rewrite (get_store_context_stores_version_aux d w st context ck session_context version)
    by done.
  cbn [fst snd]. rewrite get_menu_unfold. cbv zeta. proj. by rewrite Hfalse.
Qed.

Lemma get_menu_after_false_version_witness :
  (get_store_context
     (searched, world_of [Response 200 (Some empty_version_context) []])).1 = Ok true ∧
  (get_menu westminster
     (get_store_context
        (searched, world_of [Response 200 (Some empty_version_context) []])).2).1 = Ok None ∧
  log (get_menu westminster
         (get_store_context
            (searched, world_of [Response 200 (Some empty_version_context) []])).2).2.2 =
    [store_context_request 1425168000 (sess searched)].
Proof.
  apply (get_menu_after_false_version westminster searched
           (world_of [Response 200 (Some empty_version_context) []]) 200
           empty_version_context [] (JDict [("menuVersion", JStr "")]) (JStr ""));
    reflexivity.
Defined.

(** ** [reset_session] and what it leaves behind *)

(** X10: [reset_session] empties the cookie jar and nothing else: a [get_menu]
    after it still asks for the menu version the client held, now without
    any cookie. *)
Theorem get_menu_after_reset_session store d w st body ck store_id :
  (next_reply w).1 = Response st body ck →
  py_truthy (menu_version d) = true →
  getitem_str store "Id" = Ok store_id →
  log (get_menu store (reset_session (d, w)).2).2.2 =
    log w ++ [session_expire (sess d); catalog_request (menu_version d) store_id []].
Proof.
  intros Hreply Htruthy Hid. rewrite reset_session_unfold, Hreply. cbv zeta. cbn [snd].
  rewrite get_menu_state. cbv zeta. proj. rewrite Htruthy, Hid. cbn [negb].
  case_all; rewrite ?get_menu_loops_log; proj; by rewrite <- app_assoc.
Qed.

Lemma get_menu_after_reset_session_witness :
  log (get_menu westminster
         (reset_session (ordering, shop [Response 200 None []])).2).2.2 =
    [session_expire (sess ordering);
     catalog_request (JStr "635603832000000000") (JInt 28162) []].
Proof.
  apply (get_menu_after_reset_session westminster ordering
           (shop [Response 200 None []]) 200 None [] (JInt 28162)); reflexivity.
Defined.

(** ** [get_basket] *)

(** X11: [get_basket] does not look at the status code. A body that is a JSON
    object makes it return [True] and puts a new Basket in place; reading
    from it a name without two leading underscores gives the entry of that
    name in the object, and [AttributeError] when there is none; a JSON body that is no object,
    or an object with a key [self], makes it return [False] and leaves the
    basket as it was. *)
Theorem get_basket_outcome d w st j ck :
  (next_reply w).1 = Response st (Some j) ck →
  (∀ attrs, kwargs j = Ok attrs →
     get_basket (d, w) =
       (Ok true, (set_basket (next_id w) (set_sess (sess d ++ ck) d),
                  with_new_basket attrs (sent (basket_request (sess d)) w))) ∧
     ∀ name, plain_name name = true →
       ((b ← self_basket; Basket_getattr b name) (get_basket (d, w)).2).1 =
       getattr attrs name) ∧
  (∀ e, kwargs j = Raise e →
     (get_basket (d, w)).1 = Ok false ∧
     basket (get_basket (d, w)).2.1 = basket d ∧
     basket_heap (get_basket (d, w)).2.2 = basket_heap w).
Proof.
  intros Hreply. rewrite get_basket_unfold, Hreply. cbv zeta. cbn [mbind option_bind].
  split.
  - intros attrs ->. split; [done|]. intros name _. cbn [snd].
    unfold self_basket. run.
    rewrite (run_Basket_getattr _ _ _ attrs); [done|].
    unfold with_new_basket. proj. apply lookup_insert_eq.
  - by intros e ->.
Qed.

Lemma get_basket_outcome_witness :
  (get_basket (searched, world_of [Response 500 (Some (JDict one_line_basket)) []])).1 =
    Ok true ∧
  ((b ← self_basket; Basket_getattr b "Total")
     (get_basket (searched, world_of [Response 500 (Some (JDict one_line_basket)) []])).2).1 =
    Ok (JInt 399) ∧
  (get_basket (ordering, shop [Response 200 (Some (JList [])) []])).1 = Ok false ∧
  basket (get_basket (ordering, shop [Response 200 (Some (JList [])) []])).2.1 = Some 2.
Proof.
  split_and!.
  - destruct (get_basket_outcome searched
                (world_of [Response 500 (Some (JDict one_line_basket)) []])
                500 (JDict one_line_basket) []) as [H _]; [reflexivity|].
    destruct (H one_line_basket) as [-> _]; reflexivity.
  - destruct (get_basket_outcome searched
                (world_of [Response 500 (Some (JDict one_line_basket)) []])
                500 (JDict one_line_basket) []) as [H _]; [reflexivity|].
    destruct (H one_line_basket) as [_ Hread]; [reflexivity|].
    by rewrite (Hread "Total").
  - destruct (get_basket_outcome ordering (shop [Response 200 (Some (JList [])) []])
                200 (JList []) []) as [_ H]; [reflexivity|].
    by destruct (H TypeError) as [-> _].
  - destruct (get_basket_outcome ordering (shop [Response 200 (Some (JList [])) []])
                200 (JList []) []) as [_ H]; [reflexivity|].
    by destruct (H TypeError) as (_ & -> & _).
Defined.

(** ** [class Menu] *)

(** X12: A menu built by [addItem] calls gives back, for each category, the items
    added under it, in the order they were added, and nothing for a category
    that was never used. *)
Theorem itemsInCategory_Menu_of (l : list (hkey * nat)) (c : hkey) :
  itemsInCategory (Menu_of l) c = (filter (λ e, e.1 = c) l).*2.
Proof.
  unfold Menu_of. induction l as [|[c' item] l IH] using rev_ind.
  - cbn. unfold itemsInCategory, Menu_new. cbn. by rewrite lookup_empty.
  - rewrite foldl_app. cbn [foldl fst snd].
    rewrite itemsInCategory_addItem, IH, filter_app, fmap_app.
    destruct (decide (c' = c)) as [->|Hne].
    + by rewrite (filter_cons_True (λ e, e.1 = c)) by done.
    + rewrite (filter_cons_False (λ e, e.1 = c)) by done. cbn. by rewrite app_nil_r.
Qed.

(** ** When [get_menu] returns a menu *)

Lemma foldM_is_Ok {A B} (Q : A → Prop) (f : B → A → M B) :
  (∀ b x s, is_Ok (f b x s).1 ↔ Q x) →
  ∀ l b s, is_Ok (foldM f b l s).1 ↔ Forall Q l.
Proof.
  intros Hstep. induction l as [|x l IH]; intros b s.
  - cbn. split; [constructor|]. intros _. by exists b.
  - cbn [foldM]. rewrite run_bind, Forall_cons. specialize (Hstep b x s).
    destruct (f b x s) as [[b1|e] s1]; cbn [fst] in Hstep.
    + rewrite IH. split; [|tauto]. intros HQ. split; [|done]. apply Hstep. by exists b1.
    + cbn [fst]. split.
      * by intros [? ?].
      * intros [HQ _]. apply Hstep in HQ as [? ?]. done.
Qed.

Lemma dict_has_set_ne k k' v d : k ≠ k' → dict_has k' (dict_set k v d) = dict_has k' d.
Proof. intros Hne. unfold dict_has. by rewrite dict_get_set_ne. Qed.

Lemma get_menu_product_is_Ok i idx p s :
  is_Ok (get_menu_product i idx p s).1 ↔ product_ok p ∧ type_ok i.
Proof.
  unfold get_menu_product, product_ok, type_ok. run.
  destruct p as [| | | | |pd]; cbn [setitem_str]; run;
    try (split; [by intros [? ?] | by intros [(? & ? & ?) _]]).
  destruct (getitem_str i "Type") as [type|] eqn:Htype; run;
    [|split; [by intros [? ?] | by intros [_ (? & ? & ? & ?)]]].
  rewrite run_Item_new. cbn [kwargs]. rewrite dict_has_set_ne by done.
  destruct (dict_has "self" pd) eqn:Hself; run;
    [split; [by intros [? ?] | intros [(? & [= <-] & ?) _]; congruence]|].
  destruct (py_hashable type) as [c|] eqn:Hc; run.
  - split; [|by eexists]. intros _. split; [by exists pd | by exists type, c].
  - split; [by intros [? ?] | intros [_ (? & ? & [= <-] & ?)]; congruence].
Qed.

Lemma get_menu_subcategory_is_Ok idx i s :
  is_Ok (get_menu_subcategory idx i s).1 ↔ subcategory_ok i.
Proof.
  unfold get_menu_subcategory, subcategory_ok. run.
  destruct (getitem_str i "Products") as [products|]; run;
    [|split; [by intros [? ?] | by intros (? & ? & ? & ?)]].
  destruct (py_iter products) as [ps|] eqn:Hps; run;
    [|split; [by intros [? ?] | intros (? & ? & [= <-] & ? & ?); congruence]].
  rewrite (foldM_is_Ok (λ p, product_ok p ∧ type_ok i)).
  - split; [by exists products, ps|]. intros (? & ? & [= <-] & ? & ?). congruence.
  - intros. apply get_menu_product_is_Ok.
Qed.

Lemma get_menu_group_is_Ok idx item s :
  is_Ok (get_menu_group idx item s).1 ↔ group_ok item.
Proof.
  unfold get_menu_group, group_ok. run.
  destruct (getitem_str item "Subcategories") as [subcategories|]; run;
    [|split; [by intros [? ?] | by intros (? & ? & ? & ?)]].
  destruct (py_iter subcategories) as [l|] eqn:Hl; run;
    [|split; [by intros [? ?] | intros (? & ? & [= <-] & ? & ?); congruence]].
  rewrite (foldM_is_Ok subcategory_ok).
  - split; [by exists subcategories, l|]. intros (? & ? & [= <-] & ? & ?). congruence.
  - intros. apply get_menu_subcategory_is_Ok.
Qed.

(** X13: With a menu version and a store id, [get_menu] returns a menu for a
    JSON response exactly when the catalog can be walked: the response, the
    [Subcategories] of each group and the [Products] of each subcategory can
    be iterated, every product is an object without a key [self], and every
    subcategory with a product has a hashable [Type]. When the catalog
    cannot be walked, [get_menu] raises: it does not return [None]. The
    status code plays no part. *)
Theorem get_menu_returns_menu store d w st catalog ck store_id :
  py_truthy (menu_version d) = true →
  getitem_str store "Id" = Ok store_id →
  (next_reply w).1 = Response st (Some catalog) ck →
  ((∃ m, (get_menu store (d, w)).1 = Ok (Some m)) ↔ catalog_ok catalog) ∧
  (¬ catalog_ok catalog → ∃ e, (get_menu store (d, w)).1 = Raise e).
Proof.
  intros Htruthy Hid Hreply. rewrite get_menu_unfold, Htruthy, Hid, Hreply.
  cbv zeta. cbn [negb]. unfold catalog_ok.
  destruct (py_iter catalog) as [groups|] eqn:Hgroups.
  2:{ split; [split; [by intros [? ?] | by intros (? & ? & ?)]|].
      intros _. by eexists. }
  pose proof (foldM_is_Ok group_ok get_menu_group
                (λ b x s, get_menu_group_is_Ok b x s) groups 0%Z
                (set_sess (sess d ++ ck) (set_menu Menu_new d),
                 sent (catalog_request (menu_version d) store_id (sess d)) w)) as Hfold.
  destruct (foldM get_menu_group 0%Z groups _) as [[idx|e] s]; cbn [fst] in *.
  - assert (∃ groups', Ok groups = Ok groups' ∧ Forall group_ok groups') as Hok.
    { exists groups. split; [done|]. apply Hfold. by exists idx. }
    split; [split; [done|by eexists]|]. by intros Hnot.
  - split; [|intros _; by eexists].
    split; [by intros [? ?]|]. intros (? & [= <-] & Hok).
    apply Hfold in Hok as [? ?]. done.
Qed.

Lemma get_menu_returns_menu_witness :
  (∃ m, (get_menu westminster
           (ordering, shop [Response 200 (Some sample_catalog) []])).1 = Ok (Some m)) ∧
  (∃ e, (get_menu westminster
           (ordering, shop [Response 200 (Some (JList [JNull])) []])).1 = Raise e).
Proof.
  split.
  - destruct (get_menu_returns_menu westminster ordering
                (shop [Response 200 (Some sample_catalog) []]) 200 sample_catalog []
                (JInt 28162)) as [H _]; [reflexivity..|].
    apply H. eexists. split; [reflexivity|].
    repeat (first [ apply Forall_nil_2 | apply Forall_cons_2
                  | eexists; eexists; split_and!; [reflexivity..|]
                  | split ]);
      try (eexists; split; reflexivity);
      try (eexists; eexists; split; reflexivity).
  - destruct (get_menu_returns_menu westminster ordering
                (shop [Response 200 (Some (JList [JNull])) []]) 200 (JList [JNull]) []
                (JInt 28162)) as [_ H]; [reflexivity..|].
    apply H. intros (groups & [= <-] & Hgroups).
    apply Forall_cons_1 in Hgroups as [(? & ? & Hsub & _) _]. discriminate Hsub.
Defined.

(** X14: Without a store id nothing is sent, the call raises, and the menu is
    already gone; with one, exactly the catalog request goes out, however the
    call ends. *)
Theorem get_menu_request store d w :
  py_truthy (menu_version d) = true →
  (∀ e, getitem_str store "Id" = Raise e →
     get_menu store (d, w) = (Raise e, (set_menu Menu_new d, w))) ∧
  (∀ store_id, getitem_str store "Id" = Ok store_id →
     log (get_menu store (d, w)).2.2 =
       log w ++ [catalog_request (menu_version d) store_id (sess d)]).
Proof.
  intros Htruthy. split.
  - intros e He. by rewrite get_menu_unfold, Htruthy, He.
  - intros store_id Hid. rewrite get_menu_state, Htruthy, Hid. cbv zeta. cbn [negb].
    case_all; rewrite ?get_menu_loops_log; done.
Qed.

Lemma get_menu_request_witness :
  get_menu (JStr "Pimlico") (ordering, shop []) =
    (Raise TypeError, (set_menu Menu_new ordering, shop [])) ∧
  log (get_menu pimlico (ordering, shop [])).2.2 =
    [catalog_request (JStr "635603832000000000") (JInt 28172) (sess ordering)].
Proof.
  split.
  - destruct (get_menu_request (JStr "Pimlico") ordering (shop [])) as [H _];
      [reflexivity|]. by apply H.
  - destruct (get_menu_request pimlico ordering (shop [])) as [_ H];
      [reflexivity|]. by apply (H (JInt 28172)).
Defined.

(** ** More on [add_item] *)

Lemma add_item_payload_side item size_idx d w attrs skus sku sku_id :
  item_heap w !! item = Some attrs →
  getattr attrs "Type" = Ok (JStr "Side") →
  getattr attrs "ProductSkus" = Ok skus →
  getitem_int skus size_idx = Ok sku →
  getitem_str sku "ProductSkuId" = Ok sku_id →
  add_item_payload item size_idx (d, w) =
    (Ok (base_url +:+ "/Basket/AddProduct/", Some (side_payload sku_id)), (d, w)).
Proof.
  intros Hitem Htype Hskus Hsku Hid. unfold add_item_payload.
  rewrite run_bind, (run_Item_getattr _ _ _ attrs) by done. rewrite Htype.
  cbn [py_eq_str].
  replace (String.eqb "Side" "Pizza") with false by reflexivity.
  replace (String.eqb "Side" "Side") with true by reflexivity. cbv iota.
  rewrite run_bind, (run_Item_getattr _ _ _ attrs) by done. rewrite Hskus.
  run. rewrite Hsku. run. rewrite Hid. by run.
Qed.

(** X15: For an item whose [Type] is ['Side'], [add_item] posts the
    [ProductSkuId] of the variant at the size index with quantity 1 and no
    complimentary items, and the item is not modified. *)
Theorem add_item_side item size_idx d w attrs skus sku sku_id :
  item_heap w !! item = Some attrs →
  getattr attrs "Type" = Ok (JStr "Side") →
  getattr attrs "ProductSkus" = Ok skus →
  getitem_int skus size_idx = Ok sku →
  getitem_str sku "ProductSkuId" = Ok sku_id →
  log (add_item item size_idx (d, w)).2.2 = log w ++ [add_product sku_id (sess d)] ∧
  item_heap (add_item item size_idx (d, w)).2.2 = item_heap w.
Proof.
  intros Hitem Htype Hskus Hsku Hid. rewrite add_item_unfold.
  rewrite (add_item_payload_side _ _ _ _ attrs skus sku sku_id) by done.
  cbv zeta. proj. by case_all.
Qed.

Lemma add_item_side_witness :
  log (add_item 1 (-1) (ordering, shop [Response 200 (Some (JDict one_line_basket)) []])).2.2 =
    [add_product (JInt 510) (sess ordering)] ∧
  item_heap (add_item 1 (-1)
               (ordering, shop [Response 200 (Some (JDict one_line_basket)) []])).2.2 =
    item_heap (shop [Response 200 (Some (JDict one_line_basket)) []]).
Proof.
  apply (add_item_side 1 (-1) ordering
           (shop [Response 200 (Some (JDict one_line_basket)) []]) garlic_bread
           (JList [JDict [("ProductSkuId", JInt 510)]])
           (JDict [("ProductSkuId", JInt 510)]) (JInt 510)); reflexivity.
Defined.

(** X16: An item that is neither a ['Pizza'] nor a ['Side'] makes [add_item] raise
    [UnboundLocalError]: no payload was built. Nothing is sent and nothing
    changes. *)
Theorem add_item_other_type item size_idx d w attrs type :
  item_heap w !! item = Some attrs →
  getattr attrs "Type" = Ok type →
  py_eq_str type "Pizza" = false →
  py_eq_str type "Side" = false →
  add_item item size_idx (d, w) = (Raise UnboundLocalError, (d, w)).
Proof.
  intros Hitem Htype Hpizza Hside. rewrite add_item_unfold. unfold add_item_payload.
  rewrite run_bind, (run_Item_getattr _ _ _ attrs) by done.
  rewrite Htype, Hpizza, Hside. by run.
Qed.

Lemma add_item_other_type_witness :
  add_item 5 0 (ordering,
                set_item_heap (<[5 := [("Type", JStr "Drink"); ("ProductId", JInt 80)]]>
                                 (item_heap (shop []))) (shop [])) =
    (Raise UnboundLocalError,
     (ordering,
      set_item_heap (<[5 := [("Type", JStr "Drink"); ("ProductId", JInt 80)]]>
                       (item_heap (shop []))) (shop []))).
Proof.
  apply (add_item_other_type 5 0 ordering _
           [("Type", JStr "Drink"); ("ProductId", JInt 80)] (JStr "Drink"));
    reflexivity.
Defined.

(** X17: A size index outside the variants of a pizza or a side makes [add_item]
    raise [IndexError] before anything is sent or modified. *)
Theorem add_item_size_out_of_range item size_idx d w attrs type skus :
  item_heap w !! item = Some attrs →
  getattr attrs "Type" = Ok type →
  py_eq_str type "Pizza" = true ∨ py_eq_str type "Side" = true →
  getattr attrs "ProductSkus" = Ok (JList skus) →
  (size_idx < - Z.of_nat (length skus) ∨ Z.of_nat (length skus) ≤ size_idx)%Z →
  add_item item size_idx (d, w) = (Raise IndexError, (d, w)).
Proof.
  intros Hitem Htype Hkind Hskus Hrange. rewrite add_item_unfold.
  unfold add_item_payload.
  rewrite run_bind, (run_Item_getattr _ _ _ attrs) by done. rewrite Htype.
  destruct (py_eq_str type "Pizza") eqn:Hpizza.
  - rewrite run_bind, (run_Item_getattr _ _ _ attrs) by done. rewrite Hskus.
    run. cbn [getitem_int]. by rewrite list_getitem_out_of_range.
  - destruct Hkind as [?|Hside]; [done|]. rewrite Hside.
    rewrite run_bind, (run_Item_getattr _ _ _ attrs) by done. rewrite Hskus.
    run. cbn [getitem_int]. by rewrite list_getitem_out_of_range.
Qed.

Lemma add_item_size_out_of_range_witness :
  add_item 0 2 (ordering, shop [Response 200 None []]) =
    (Raise IndexError, (ordering, shop [Response 200 None []])) ∧
  add_item 1 (-2) (ordering, shop [Response 200 None []]) =
    (Raise IndexError, (ordering, shop [Response 200 None []])).
Proof.
  split.
  - eapply (add_item_size_out_of_range 0 2 ordering _ margherita (JStr "Pizza"));
      [reflexivity|reflexivity|by left|reflexivity|cbn; lia].
  - eapply (add_item_size_out_of_range 1 (-2) ordering _ garlic_bread (JStr "Side"));
      [reflexivity|reflexivity|by right|reflexivity|cbn; lia].
Defined.

Lemma pizza_written attrs skus sku own size_idx new :
  getattr attrs "ProductSkus" = Ok skus →
  getitem_int skus size_idx = Ok sku →
  getitem_str sku "Ingredients" = Ok (JList own) →
  ∃ skus' sku',
    getattr (Item_write_ingredients size_idx new attrs) "ProductSkus" = Ok skus' ∧
    getitem_int skus' size_idx = Ok sku' ∧
    getitem_str sku' "Ingredients" = Ok new.
Proof.
  intros Hskus Hsku Hown.
  unfold getattr in Hskus. destruct (dict_get "ProductSkus" attrs) as [skus'|] eqn:E; [|done].
  injection Hskus as ->.
  destruct skus as [| | |s|l|]; try done.
  - cbn [getitem_int] in Hsku. apply list_getitem_Ok_inv in Hsku as (j & Hj & _).
    apply list_lookup_fmap_Some in Hj as (c & -> & _). done.
  - cbn [getitem_int] in Hsku. destruct sku as [| | | | |sd]; try done.
    unfold Item_write_ingredients, getattr. rewrite E, Hsku, dict_get_set_eq.
    eexists _, _. split_and!; [done| |].
    + cbn [getitem_int]. by apply (list_getitem_setitem _ _ (JDict sd)).
    + cbn [getitem_str]. by rewrite dict_get_set_eq.
Qed.

Lemma item_after_add_item_pizza item size_idx d w attrs skus sku own product_id :
  item_heap w !! item = Some attrs →
  getattr attrs "Type" = Ok (JStr "Pizza") →
  getattr attrs "ProductSkus" = Ok skus →
  getitem_int skus size_idx = Ok sku →
  getitem_str sku "Ingredients" = Ok (JList own) →
  getattr attrs "ProductId" = Ok product_id →
  item_heap (add_item item size_idx (d, w)).2.2 !! item =
    Some (Item_write_ingredients size_idx (JList (own ++ [JInt 42; JInt 36])) attrs) ∧
  log (add_item item size_idx (d, w)).2.2 =
    log w ++ [add_pizza size_idx product_id (own ++ [JInt 42; JInt 36]) (sess d)].
Proof.
  intros Hitem Htype Hskus Hsku Hown Hid. rewrite add_item_unfold.
  rewrite (add_item_payload_pizza _ _ _ _ attrs skus sku own product_id) by done.
  cbv zeta. proj.
  assert (alter (Item_write_ingredients size_idx (JList (own ++ [JInt 42; JInt 36])))
            item (item_heap w) !! item =
          Some (Item_write_ingredients size_idx (JList (own ++ [JInt 42; JInt 36])) attrs))
    as Halter by (by rewrite lookup_alter_eq, Hitem).
  case_all; unfold with_new_basket; proj; by split.
Qed.

Lemma pizza_variant_add_item item size_idx product_id own d w :
  pizza_variant w item size_idx product_id own →
  pizza_variant (add_item item size_idx (d, w)).2.2 item size_idx product_id
    (own ++ [JInt 42; JInt 36]).
Proof.
  intros (attrs & skus & sku & Hitem & Htype & Hskus & Hsku & Hown & Hid).
  destruct (item_after_add_item_pizza item size_idx d w attrs skus sku own product_id)
    as (Hafter & _); [done..|].
  destruct (pizza_written attrs skus sku own size_idx (JList (own ++ [JInt 42; JInt 36])))
    as (skus' & sku' & ? & ? & ?); [done..|].
  exists (Item_write_ingredients size_idx (JList (own ++ [JInt 42; JInt 36])) attrs),
    skus', sku'.
  split_and!; [done| |done..|]; by rewrite getattr_write_ingredients.
Qed.

(** X18: Adding the same pizza [n] times leaves [n] copies of 42 and 36 at the end
    of the variant's ingredient list, and the next [add_item] posts the list
    with one more copy, whatever the site answered in between. *)
Theorem add_item_times_pizza n item size_idx product_id own s :
  pizza_variant s.2 item size_idx product_id own →
  let s' := add_item_times n item size_idx s in
  pizza_variant s'.2 item size_idx product_id
    (own ++ concat (replicate n [JInt 42; JInt 36])) ∧
  ∃ jar,
    log (add_item item size_idx s').2.2 =
      log s'.2 ++ [add_pizza size_idx product_id
                     (own ++ concat (replicate (S n) [JInt 42; JInt 36])) jar].
Proof.
  intros Hpizza. cbv zeta.
  assert (pizza_variant (add_item_times n item size_idx s).2 item size_idx product_id
            (own ++ concat (replicate n [JInt 42; JInt 36]))) as Hn.
  { revert s own Hpizza. induction n as [|n IH]; intros [d w] own Hpizza.
    - cbn. by rewrite app_nil_r.
    - cbn [add_item_times replicate concat]. rewrite app_assoc.
      apply IH. by apply pizza_variant_add_item. }
  split; [done|].
  destruct (add_item_times n item size_idx s) as [d' w']. cbn [snd] in *.
  destruct Hn as (attrs & skus & sku & Hitem & Htype & Hskus & Hsku & Hown & Hid).
  exists (sess d').
  destruct (item_after_add_item_pizza item size_idx d' w' attrs skus sku
              (own ++ concat (replicate n [JInt 42; JInt 36])) product_id)
    as (_ & ->); [done..|].
  cbn [replicate concat]. do 3 f_equal.
  rewrite <- !app_assoc. f_equal.
  clear. induction n as [|n IH]; [done|]. cbn [replicate concat].
  rewrite <- app_assoc, IH. done.
Qed.

Lemma add_item_times_pizza_witness :
  pizza_variant
    (add_item_times 2 0 0
       (ordering, shop [Response 200 None []; Transport_failure])).2
    0 0 (JInt 12) [JInt 7; JInt 42; JInt 36; JInt 42; JInt 36] ∧
  ∃ jar,
    log (add_item 0 0
           (add_item_times 2 0 0
              (ordering, shop [Response 200 None []; Transport_failure]))).2.2 =
      log (add_item_times 2 0 0
             (ordering, shop [Response 200 None []; Transport_failure])).2 ++
      [add_pizza 0 (JInt 12)
         [JInt 7; JInt 42; JInt 36; JInt 42; JInt 36; JInt 42; JInt 36] jar].
Proof.
  apply (add_item_times_pizza 2 0 0 (JInt 12) [JInt 7]
           (ordering, shop [Response 200 None []; Transport_failure])).
  exists margherita. eexists _, _. split_and!; reflexivity.
Defined.

(** X19: A pizza without a [ProductId] makes [add_item] raise [AttributeError]
    with nothing sent, but only after the variant's ingredient list was
    extended: the item is left modified. *)
Theorem add_item_pizza_without_product_id item size_idx d w attrs skus sku own :
  item_heap w !! item = Some attrs →
  getattr attrs "Type" = Ok (JStr "Pizza") →
  getattr attrs "ProductSkus" = Ok skus →
  getitem_int skus size_idx = Ok sku →
  getitem_str sku "Ingredients" = Ok (JList own) →
  dict_get "ProductId" attrs = None →
  (add_item item size_idx (d, w)).1 = Raise AttributeError ∧
  log (add_item item size_idx (d, w)).2.2 = log w ∧
  Item_ingredients (add_item item size_idx (d, w)).2.2 item size_idx =
    Ok (JList (own ++ [JInt 42; JInt 36])).
Proof.
  intros Hitem Htype Hskus Hsku Hown Hid.
  set (new := JList (own ++ [JInt 42; JInt 36])).
  assert (add_item_payload item size_idx (d, w) =
          (Raise AttributeError,
           (d, set_item_heap
                 (alter (Item_write_ingredients size_idx new) item (item_heap w)) w)))
    as Hpayload.
  { unfold add_item_payload.
    rewrite run_bind, (run_Item_getattr _ _ _ attrs) by done. rewrite Htype.
    cbn [py_eq_str]. replace (String.eqb "Pizza" "Pizza") with true by reflexivity.
    cbv iota.
    rewrite run_bind, (run_Item_getattr _ _ _ attrs) by done. rewrite Hskus.
    run. rewrite Hsku. run. rewrite Hown. run. cbn [iadd_list]. run.
    rewrite (run_Item_getattr _ _ _ (Item_write_ingredients size_idx new attrs))
      by (proj; by rewrite lookup_alter_eq, Hitem).
    rewrite getattr_write_ingredients by done. unfold getattr. by rewrite Hid. }
  rewrite add_item_unfold, Hpayload. split_and!; [done..|].
  unfold Item_ingredients. proj. rewrite lookup_alter_eq, Hitem. cbn [fmap option_fmap option_map].
  destruct (pizza_written attrs skus sku own size_idx new) as (skus' & sku' & H1 & H2 & H3);
    [done..|].
  unfold variant_ingredients. by rewrite H1, H2.
Qed.

Lemma add_item_pizza_without_product_id_witness :
  let w := set_item_heap
             (<[7 := [("Type", JStr "Pizza");
                      ("ProductSkus", JList [JDict [("Ingredients", JList [JInt 3])]])]]>
                (item_heap (shop []))) (shop []) in
  (add_item 7 0 (ordering, w)).1 = Raise AttributeError ∧
  log (add_item 7 0 (ordering, w)).2.2 = [] ∧
  Item_ingredients (add_item 7 0 (ordering, w)).2.2 7 0 =
    Ok (JList [JInt 3; JInt 42; JInt 36]).
Proof.
  intros w.
  apply (add_item_pizza_without_product_id 7 0 ordering w
           [("Type", JStr "Pizza");
            ("ProductSkus", JList [JDict [("Ingredients", JList [JInt 3])]])]
           (JList [JDict [("Ingredients", JList [JInt 3])]])
           (JDict [("Ingredients", JList [JInt 3])]) [JInt 3]); reflexivity.
Defined.

(** X20: A 200 response with a JSON object, after a payload was built, makes
    [add_item] return [True]; the basket is then a new object, and reading
    from it a name without two leading underscores gives the entry of that
    name in the response, and [AttributeError] when there is none. *)
Theorem add_item_success item size_idx d w url payload s1 j ck attrs :
  add_item_payload item size_idx (d, w) = (Ok (url, Some payload), s1) →
  (next_reply w).1 = Response 200 (Some j) ck →
  kwargs j = Ok attrs →
  (add_item item size_idx (d, w)).1 = Ok true ∧
  basket (add_item item size_idx (d, w)).2.1 = Some (next_id w) ∧
  ∀ name, plain_name name = true →
    ((b ← self_basket; Basket_getattr b name) (add_item item size_idx (d, w)).2).1 =
    getattr attrs name.
Proof.
  intros Hpayload Hreply Hj.
  destruct (add_item_payload_frame item size_idx d w) as [h Hs1].
  rewrite add_item_unfold, Hpayload. rewrite Hpayload in Hs1. cbn [snd] in Hs1. subst s1.
  cbv zeta. proj.
  replace (next_reply (set_item_heap h w)) with (next_reply w) by reflexivity.
  rewrite Hreply, Hj. cbn [Z.eqb Pos.eqb]. split_and!; [done..|].
  intros name _. cbn [snd]. unfold self_basket. run.
  rewrite (run_Basket_getattr _ _ _ attrs); [done|].
  unfold with_new_basket. proj. apply lookup_insert_eq.
Qed.

Lemma add_item_success_witness :
  (add_item 1 0 (ordering, shop [Response 200 (Some (JDict one_line_basket)) []])).1 =
    Ok true ∧
  basket (add_item 1 0
            (ordering, shop [Response 200 (Some (JDict one_line_basket)) []])).2.1 = Some 3 ∧
  ((b ← self_basket; Basket_getattr b "Total")
     (add_item 1 0 (ordering, shop [Response 200 (Some (JDict one_line_basket)) []])).2).1 =
  Ok (JInt 399).
Proof.
  edestruct (add_item_success 1 0 ordering
               (shop [Response 200 (Some (JDict one_line_basket)) []]))
    as (Htrue & Hbasket & Hread); [reflexivity..|].
  split_and!; [exact Htrue|exact Hbasket|].
  by rewrite (Hread "Total").
Defined.

(** ** More on [remove_item] *)

(** X21: Without a basket, with a basket that has no [Items], or with a position
    outside its [Items], [remove_item] raises ([AttributeError],
    [AttributeError], [IndexError]) before anything is sent, printed or
    changed. *)
Theorem remove_item_nothing_to_remove i d w :
  (basket d = None → remove_item i (d, w) = (Raise AttributeError, (d, w))) ∧
  (∀ b battrs,
     basket d = Some b → basket_heap w !! b = Some battrs →
     dict_get "Items" battrs = None →
     remove_item i (d, w) = (Raise AttributeError, (d, w))) ∧
  (∀ b battrs lines,
     basket d = Some b → basket_heap w !! b = Some battrs →
     getattr battrs "Items" = Ok (JList lines) →
     (i < - Z.of_nat (length lines) ∨ Z.of_nat (length lines) ≤ i)%Z →
     remove_item i (d, w) = (Raise IndexError, (d, w))).
Proof.
  split_and!.
  - intros Hb. unfold remove_item, self_basket. run. rewrite Hb. by run.
  - intros b battrs Hb Hbattrs Hitems. unfold remove_item, self_basket. run.
    rewrite Hb. run. rewrite (run_Basket_getattr _ _ _ battrs) by done.
    unfold getattr. by rewrite Hitems.
  - intros b battrs lines Hb Hbattrs Hitems Hrange. unfold remove_item, self_basket.
    run. rewrite Hb. run. rewrite (run_Basket_getattr _ _ _ battrs) by done.
    rewrite Hitems. run. cbn [getitem_int]. by rewrite list_getitem_out_of_range.
Qed.

Lemma remove_item_nothing_to_remove_witness :
  remove_item 0 (searched, world_of [Response 200 None []]) =
    (Raise AttributeError, (searched, world_of [Response 200 None []])) ∧
  remove_item 1 (ordering, shop [Response 200 None []]) =
    (Raise IndexError, (ordering, shop [Response 200 None []])).
Proof.
  split.
  - destruct (remove_item_nothing_to_remove 0 searched (world_of [Response 200 None []]))
      as (H & _ & _).
    by apply H.
  - destruct (remove_item_nothing_to_remove 1 ordering (shop [Response 200 None []]))
      as (_ & _ & H).
    eapply (H 2 one_line_basket); [reflexivity..|cbn; lia].
Defined.

(** X22: When the removal is answered by a 200 with a JSON object, [remove_item]
    prints the [Title] of the line as the basket held it before the call. A
    line without a [Title] makes it raise [AttributeError] then: nothing is
    printed, but the basket has already been replaced. *)
Theorem remove_item_reports_title d w i b battrs lines line lattrs bid j ck attrs :
  basket d = Some b →
  basket_heap w !! b = Some battrs →
  getattr battrs "Items" = Ok lines →
  getitem_int lines i = Ok line →
  kwargs line = Ok lattrs →
  getattr lattrs "BasketItemId" = Ok bid →
  (next_reply w).1 = Response 200 (Some j) ck →
  kwargs j = Ok attrs →
  (∀ title, getattr lattrs "Title" = Ok title →
     (remove_item i (d, w)).1 = Ok () ∧
     stdout (remove_item i (d, w)).2.2 = stdout w ++ [OK_removed title]) ∧
  (dict_get "Title" lattrs = None →
     (remove_item i (d, w)).1 = Raise AttributeError ∧
     stdout (remove_item i (d, w)).2.2 = stdout w ∧
     basket (remove_item i (d, w)).2.1 = Some (S (next_id w))).
Proof.
  intros Hb Hbattrs Hlines Hline Hlattrs Hbid Hreply Hj.
  rewrite (remove_item_unfold d w i b battrs lines line lattrs bid) by done.
  rewrite Hreply. cbv zeta. cbn [Z.eqb Pos.eqb mbind option_bind]. rewrite Hj. split.
  - by intros title ->.
  - intros Htitle. unfold getattr. by rewrite Htitle.
Qed.

Lemma remove_item_reports_title_witness :
  (remove_item 0 (ordering, shop [Response 200 (Some (JDict [("Items", JList [])])) []])).1 =
    Ok () ∧
  stdout (remove_item 0
            (ordering, shop [Response 200 (Some (JDict [("Items", JList [])])) []])).2.2 =
    [OK_removed (JStr "Garlic Pizza Bread")].
Proof.
  destruct (remove_item_reports_title ordering
              (shop [Response 200 (Some (JDict [("Items", JList [])])) []]) 0 2
              one_line_basket
              (JList [JDict [("BasketItemId", JInt 3); ("Title", JStr "Garlic Pizza Bread")]])
              (JDict [("BasketItemId", JInt 3); ("Title", JStr "Garlic Pizza Bread")])
              [("BasketItemId", JInt 3); ("Title", JStr "Garlic Pizza Bread")]
              (JInt 3) (JDict [("Items", JList [])]) [] [("Items", JList [])])
    as [H _]; [reflexivity..|].
  by apply H.
Defined.

(** X23: [remove_item] works on the basket the last [get_basket] stored: the
    [basketItemId] it passes to the session is the [BasketItemId], when that
    is not null, of the line at that position in the response [get_basket]
    received, and this call comes right after the basket call. *)
Theorem remove_item_after_get_basket i d w st fields ck lines line lattrs bid :
  (next_reply w).1 = Response st (Some (JDict fields)) ck →
  dict_has "self" fields = false →
  getattr fields "Items" = Ok lines →
  getitem_int lines i = Ok line →
  kwargs line = Ok lattrs →
  getattr lattrs "BasketItemId" = Ok bid →
  bid ≠ JNull →
  ∃ jar,
    log (remove_item i (get_basket (d, w)).2).2.2 =
      log w ++ [basket_request (sess d); remove_basket_item bid jar].
Proof.
  intros Hreply Hself Hlines Hline Hlattrs Hbid _. exists (sess d ++ ck).
  rewrite get_basket_unfold, Hreply. cbv zeta. cbn [mbind option_bind kwargs].
  rewrite Hself. cbn [snd].
  rewrite (remove_item_unfold _ _ i (next_id w) fields lines line lattrs bid);
    [|done|unfold with_new_basket; proj; apply lookup_insert_eq|done..].
  cbv zeta. case_all;
    try match goal with
        | |- context [match ?x with Some _ => _ | None => _ end] => destruct x
        end;
    unfold with_new_basket, with_new_item, printed; proj; by rewrite <- app_assoc.
Qed.

Lemma remove_item_after_get_basket_witness :
  ∃ jar,
    log (remove_item (-1)
           (get_basket (searched,
                        world_of [Response 200 (Some (JDict one_line_basket)) ["b=1"]])).2).2.2 =
      [basket_request (sess searched); remove_basket_item (JInt 3) jar].
Proof.
  apply (remove_item_after_get_basket (-1) searched
           (world_of [Response 200 (Some (JDict one_line_basket)) ["b=1"]]) 200
           one_line_basket ["b=1"]
           (JList [JDict [("BasketItemId", JInt 3); ("Title", JStr "Garlic Pizza Bread")]])
           (JDict [("BasketItemId", JInt 3); ("Title", JStr "Garlic Pizza Bread")])
           [("BasketItemId", JInt 3); ("Title", JStr "Garlic Pizza Bread")]
           (JInt 3)); done.
Defined.

(** ** A new client *)

(** X24: Creating a client sends the session-expire request, from an empty jar.
    When it is answered, the client starts with no cookie (also none of that
    response), no store, no menu version, an empty menu and no basket; when
    the transport fails, the constructor raises. *)
Theorem Dominos_init_outcome w :
  (∀ st body ck, (next_reply w).1 = Response st body ck →
     Dominos_init w =
       (Ok (), (mkDominos [] [] JNull Menu_new None, sent (session_expire []) w))) ∧
  ((next_reply w).1 = Transport_failure →
     (Dominos_init w).1 = Raise ConnectionError ∧
     log (Dominos_init w).2.2 = log w ++ [session_expire []]).
Proof.
  unfold Dominos_init. rewrite reset_session_unfold. cbv zeta. split.
  - by intros st body ck ->.
  - by intros ->.
Qed.

Lemma Dominos_init_outcome_witness :
  Dominos_init (world_of [Response 200 None ["ASP.NET_SessionId=k3"]]) =
    (Ok (), (mkDominos [] [] JNull Menu_new None,
             sent (session_expire []) (world_of [Response 200 None ["ASP.NET_SessionId=k3"]]))) ∧
  (Dominos_init (world_of [])).1 = Raise ConnectionError.
Proof.
  split.
  - destruct (Dominos_init_outcome (world_of [Response 200 None ["ASP.NET_SessionId=k3"]]))
      as [H _].
    by apply (H 200%Z None ["ASP.NET_SessionId=k3"]).
  - destruct (Dominos_init_outcome (world_of [])) as [_ H].
    by destruct H as [-> _].
Defined.

Lemma menu_version_set_by_store_context_witness :
  menu_version (get_store_context (ordering, shop [Response 200 None []])).2.1 =
    JStr "635603832000000000".
Proof.
  destruct menu_version_set_by_store_context as [_ H].
  destruct (H (ordering, shop [Response 200 None []])) as (_ & _ & _ & _ & Hcontext & _).
  by rewrite Hcontext.
Defined.
